(** * square-model-client: the SQuAREModelClient of model_client.py

  A shallow embedding of [square_model_client/model_client.py]: the payload
  codec ([decode_model_api_response] with its local helpers [_decode] and
  [dec_or_iterate]), the task poller ([_wait_for_task]), the facade
  operations [predict], [deploy], [deployed_models],
  [get_models_in_deployment], [__call__], and the deployment guard
  [deploy_model_if_not_exists].

  Values that arrive over the wire are JSON trees.  Python exceptions are
  the left summand of a sum type.  The HTTP transport, the credential
  provider, base64 and numpy are collaborators outside the repository; the
  classes [Numerics] and [Environment] collect what the client asks of
  them. *)

From stdpp Require Import gmap strings list.
From Equations Require Import Equations.

Set Warnings "-register-all".

Local Open Scope string_scope.
Local Open Scope Z_scope.

(** ** Python dictionaries

  A [dict] keeps insertion order and has each key once.  Assigning to a
  present key keeps its position, assigning to an absent one appends. *)

Module Dict.

Fixpoint get {V : Type} (k : string) (d : list (string * V)) : option V :=
  match d with
  | [] => None
  | (k', v) :: r => if String.eqb k' k then Some v else get k r
  end.

Fixpoint set {V : Type} (k : string) (v : V) (d : list (string * V))
  : list (string * V) :=
  match d with
  | [] => [(k, v)]
  | (k', v') :: r =>
      if String.eqb k' k then (k', v) :: r else (k', v') :: set k v r
  end.

Definition mem {V : Type} (k : string) (d : list (string * V)) : bool :=
  match get k d with Some _ => true | None => false end.

Definition keys {V : Type} (d : list (string * V)) : list string := d.*1.

Definition values {V : Type} (d : list (string * V)) : list V := d.*2.

End Dict.

(** ** Collaborators outside the repository, first part

  numpy arrays, Python floats and the errors raised inside base64 and numpy
  are opaque to the client. *)

Class Numerics : Type := {
  ndarray : Type;
  pyfloat : Type;
  lib_error : Type;
  float_bool : pyfloat -> bool;              (* bool(x) *)
  float_eq : pyfloat -> pyfloat -> bool;     (* x == y *)
  float_eq_int : pyfloat -> Z -> bool        (* x == n *)
}.

Section Values.

Context `{Numerics}.

(** ** JSON values, as [response.json()] builds them *)

Inductive json : Type :=
| JNull
| JBool (b : bool)
| JInt (n : Z)
| JFloat (x : pyfloat)
| JStr (s : string)
| JList (xs : list json)
| JDict (kvs : list (string * json)).

(** ** Decoded numeric values: an array, or a list of decoded values *)

Inductive decoded : Type :=
| DArray (a : ndarray)
| DList (ds : list decoded).

(** ** Exceptions *)

Inductive exn : Type :=
| ValueError_unexpected_value (type_of_val : string)
    (* raised by dec_or_iterate *)
| ValueError_unknown_prediction_method (prediction_method : string)
    (* raised by predict *)
| ValueError_sleep_length
    (* time.sleep with a negative length *)
| KeyError (key : json)
| IndexError
| TypeError (what : string)
| AttributeError (what : string)
| HTTPError (status_code : Z)
    (* response.raise_for_status() *)
| JSONDecodeError
    (* response.json() on a body that is not JSON *)
| UnicodeEncodeError
    (* str.encode() on a str that holds a lone surrogate *)
| OverflowError
    (* time.sleep with a length too large for the platform; some platforms
       raise OSError instead *)
| LibraryError (e : lib_error).
    (* raised inside base64 or numpy *)

Definition result (A : Type) : Type := exn + A.

Definition rbind {A B : Type} (r : result A) (k : A -> result B) : result B :=
  match r with
  | inl e => inl e
  | inr a => k a
  end.

Definition of_lib {A : Type} (r : lib_error + A) : result A :=
  match r with
  | inl e => inl (LibraryError e)
  | inr a => inr a
  end.

(** [[f(x) for x in xs]]: left to right, the first exception escapes. *)
Definition comprehension {A B : Type} (f : A -> result B)
  : list A -> result (list B) :=
  fix go (xs : list A) : result (list B) :=
    match xs with
    | [] => inr []
    | x :: r =>
        match f x with
        | inl e => inl e
        | inr y =>
            match go r with
            | inl e => inl e
            | inr ys => inr (y :: ys)
            end
        end
    end.

(** [{key: f(arr) for key, arr in d.items()}] *)
Definition dict_comprehension {A B : Type} (f : A -> result B)
  : list (string * A) -> result (list (string * B)) :=
  comprehension (fun kv => rbind (f kv.2) (fun y => inr (kv.1, y))).

(** ** Python primitives on JSON values *)

(** Truth value of an object, as [if] and [not] test it. *)
Definition truthy (v : json) : bool :=
  match v with
  | JNull => false
  | JBool b => b
  | JInt n => negb (n =? 0)
  | JFloat x => float_bool x
  | JStr s => negb (String.eqb s "")
  | JList xs => match xs with [] => false | _ => true end
  | JDict kvs => match kvs with [] => false | _ => true end
  end.

(** [type(val)] as an f-string prints it. *)
Definition type_name (v : json) : string :=
  match v with
  | JNull => "<class 'NoneType'>"
  | JBool _ => "<class 'bool'>"
  | JInt _ => "<class 'int'>"
  | JFloat _ => "<class 'float'>"
  | JStr _ => "<class 'str'>"
  | JList _ => "<class 'list'>"
  | JDict _ => "<class 'dict'>"
  end.

(** [v[key]] with a string key. *)
Definition subscript (v : json) (key : string) : result json :=
  match v with
  | JDict kvs =>
      match Dict.get key kvs with
      | Some x => inr x
      | None => inl (KeyError (JStr key))
      end
  | _ => inl (TypeError (type_name v))
  end.

(** [a == b].  [bool] is a subclass of [int]; dictionaries compare without
    regard to order. *)
Definition num_eq (a b : json) : option bool :=
  match a, b with
  | JBool x, JBool y => Some (Z.b2z x =? Z.b2z y)
  | JBool x, JInt n => Some (Z.b2z x =? n)
  | JInt n, JBool y => Some (n =? Z.b2z y)
  | JInt n, JInt m => Some (n =? m)
  | JFloat x, JFloat y => Some (float_eq x y)
  | JFloat x, JInt n => Some (float_eq_int x n)
  | JInt n, JFloat y => Some (float_eq_int y n)
  | JFloat x, JBool b => Some (float_eq_int x (Z.b2z b))
  | JBool b, JFloat y => Some (float_eq_int y (Z.b2z b))
  | _, _ => None
  end.

Fixpoint py_eq (a b : json) : bool :=
  match a, b with
  | JNull, JNull => true
  | JStr s, JStr t => String.eqb s t
  | JList xs, JList ys =>
      (fix go (xs ys : list json) : bool :=
         match xs, ys with
         | [], [] => true
         | x :: xs', y :: ys' => py_eq x y && go xs' ys'
         | _, _ => false
         end) xs ys
  | JDict d, JDict d' =>
      (length d =? length d')%nat &&
      (fix go (d : list (string * json)) : bool :=
         match d with
         | [] => true
         | (k, v) :: r =>
             match Dict.get k d' with
             | Some v' => py_eq v v' && go r
             | None => false
             end
         end) d
  | _, _ => match num_eq a b with Some r => r | None => false end
  end.

(** [v[0]] *)
Definition subscript_0 (v : json) : result json :=
  match v with
  | JList (x :: _) => inr x
  | JList [] => inl IndexError
  | JStr (String c _) => inr (JStr (String c ""))
  | JStr "" => inl IndexError
  | JDict _ => inl (KeyError (JInt 0))
  | _ => inl (TypeError (type_name v))
  end.

(** [for x in v]: the elements that the loop visits. *)
Definition iterate (v : json) : result (list json) :=
  match v with
  | JList xs => inr xs
  | JDict kvs => inr (JStr <$> Dict.keys kvs)
  | JStr s => inr ((fun c => JStr (String c "")) <$> String.list_ascii_of_string s)
  | _ => inl (TypeError (type_name v))
  end.

(** [v.values()] *)
Definition dict_values (v : json) : result (list json) :=
  match v with
  | JDict kvs => inr (Dict.values kvs)
  | _ => inl (AttributeError (type_name v))
  end.

(** A dictionary built by the client, whose keys are whatever the server
    sent: keys compare with [==], and lists and dicts are unhashable. *)
Definition hashable (k : json) : bool :=
  match k with
  | JList _ | JDict _ => false
  | _ => true
  end.

Fixpoint kv_get (k : json) (d : list (json * json)) : option json :=
  match d with
  | [] => None
  | (k', v) :: r => if py_eq k' k then Some v else kv_get k r
  end.

Fixpoint kv_set (k v : json) (d : list (json * json)) : list (json * json) :=
  match d with
  | [] => [(k, v)]
  | (k', v') :: r => if py_eq k' k then (k', v) :: r else (k', v') :: kv_set k v r
  end.

End Values.

Arguments json {_}.
Arguments decoded {_}.
Arguments exn {_}.

(** ** The wire *)

Inductive http_method : Type := GET | POST | PATCH | DELETE.

Record request `{Numerics} : Type := {
  method : http_method;
  url : string;
  json_body : option json;
  headers : list (string * string);
  verify : bool
}.

Record response `{Numerics} : Type := {
  status_code : Z;
  body : option json          (* the parsed body; None when it is not JSON *)
}.

(** [response.json()] *)
Definition response_json `{Numerics} (r : response) : result json :=
  match body r with
  | Some v => inr v
  | None => inl JSONDecodeError
  end.

(** ** Collaborators outside the repository, second part *)

Class Environment `{Numerics} : Type := {
  base64_decodebytes : list Byte.byte -> lib_error + list Byte.byte;
  np_load : list Byte.byte -> lib_error + ndarray;      (* np.load(BytesIO(b)) *)
  np_array : json -> lib_error + ndarray;          (* np.array(arr) *)
  (* what the two branches of the codec do to a value that already is a
     numpy array; only an already decoded response reaches them *)
  ndarray_comprehension : ndarray -> result decoded;
  np_array_of_decoded : decoded -> lib_error + ndarray;
  (* str(v) of a value that is not a str *)
  py_str : json -> string;
  (* the longest sleep, in seconds, that time.sleep takes on the platform *)
  sleep_limit : Z;
  (* the server and the credential provider; [requests_send] is an exchange
     that the transport completes: it gives the answer of the server.  What
     the transport itself raises (an unset or malformed URL, a refused
     connection) is not modelled. *)
  World : Type;
  client_credentials : World -> string * World;
  requests_send : request -> World -> response * World
}.

Section Operations.

Context `{Environment}.

(** ** Program state

  Objects that the client only reads are handled by value.  The mapping
  handed to [decode_model_api_response] is assigned to in place, so it lives
  in a store and is passed by reference. *)

Inductive field : Type :=
| FJson (v : json)
| FDecoded (outputs : list (string * decoded)).

Inductive object : Type :=
| ODict (fields : list (string * field))
| OJson (v : json)
| OResponse (r : response).

(** What a facade operation hands back: parsed JSON, or the raw
    [requests.Response]. *)
Inductive pyobj : Type :=
| Json (v : json)
| Resp (r : response).

Inductive event : Type :=
| Credentials                  (* client_credentials() *)
| Http (r : request)           (* requests.get / post / ... *)
| Sleep (seconds : Z).         (* time.sleep *)

Record state : Type := {
  world : World;
  trace : list event;
  heap : gmap positive object
}.

Definition M (A : Type) : Type := state -> result A * state.

Definition ret {A : Type} (a : A) : M A := fun st => (inr a, st).

Definition raise {A : Type} (e : exn) : M A := fun st => (inl e, st).

Definition lift {A : Type} (r : result A) : M A := fun st => (r, st).

Definition bind {A B : Type} (m : M A) (k : A -> M B) : M B :=
  fun st =>
    match m st with
    | (inl e, st') => (inl e, st')
    | (inr a, st') => k a st'
    end.

Notation "x <- m ;; k" := (bind m (fun x => k))
  (at level 100, m at next level, right associativity).

Definition credentials : M string :=
  fun st =>
    let (token, w) := client_credentials (world st) in
    (inr token, {| world := w; trace := trace st ++ [Credentials]; heap := heap st |}).

Definition requests (r : request) : M response :=
  fun st =>
    let (resp, w) := requests_send r (world st) in
    (inr resp, {| world := w; trace := trace st ++ [Http r]; heap := heap st |}).

Definition sleep (seconds : Z) : M unit :=
  fun st =>
    if seconds <? 0 then (inl ValueError_sleep_length, st)
    else if sleep_limit <? seconds then (inl OverflowError, st)
    else (inr tt, {| world := world st; trace := trace st ++ [Sleep seconds];
                     heap := heap st |}).

Definition alloc (o : object) : M positive :=
  fun st =>
    let l := fresh (dom (heap st)) in
    (inr l, {| world := world st; trace := trace st; heap := <[l := o]> (heap st) |}).

(** ** The client object *)

Record client : Type := {
  square_api_url : option string;     (* os.getenv gives None when unset *)
  verify_ssl : bool;
  max_attempts : Z;
  poll_interval : Z
}.

Definition __init__ (SQUARE_API_URL VERIFY_SSL : option string) : client :=
  {| square_api_url := SQUARE_API_URL;
     verify_ssl := bool_decide (VERIFY_SSL = Some "1");
     max_attempts := 50;
     poll_interval := 2 |}.

Definition fstr (v : json) : string :=
  match v with JStr s => s | _ => py_str v end.

Definition api_url (self : client) : string :=
  match square_api_url self with Some u => u | None => "None" end.

(** ** The payload codec *)

(** A [str] is held as the bytes of its generalised UTF-8 form, in which a
    lone surrogate, which parsed JSON can carry, takes the three bytes
    ED A0..BF 80..BF.  [str.encode()] gives those bytes back, and raises on
    a surrogate. *)
Fixpoint has_surrogate (bs : list Byte.byte) : bool :=
  match bs with
  | [] => false
  | b :: r =>
      match r with
      | b' :: _ =>
          ((Byte.to_N b =? 237)%N && (160 <=? Byte.to_N b')%N) || has_surrogate r
      | [] => false
      end
  end.

Definition encode (s : string) : result (list Byte.byte) :=
  let bs := String.list_byte_of_string s in
  if has_surrogate bs then inl UnicodeEncodeError else inr bs.

Definition _decode (arr_string_b64 : string) : result ndarray :=
  rbind (encode arr_string_b64) (fun arr_binary_b64 =>
  rbind (of_lib (base64_decodebytes arr_binary_b64)) (fun arr_binary =>
  of_lib (np_load arr_binary))).

Fixpoint dec_or_iterate (val : json) : result decoded :=
  match val with
  | JStr s => rbind (_decode s) (fun arr => inr (DArray arr))
  | JList xs => rbind (comprehension dec_or_iterate xs) (fun ds => inr (DList ds))
  | JDict kvs =>
      (* iterating a dict yields its keys, which are str *)
      rbind (comprehension (fun k => rbind (_decode k) (fun arr => inr (DArray arr)))
               (Dict.keys kvs))
            (fun ds => inr (DList ds))
  | JNull | JBool _ | JInt _ | JFloat _ =>
      inl (ValueError_unexpected_value (type_name val))
  end.

Fixpoint dec_or_iterate_decoded (val : decoded) : result decoded :=
  match val with
  | DArray a => ndarray_comprehension a
  | DList ds =>
      rbind (comprehension dec_or_iterate_decoded ds) (fun ds' => inr (DList ds'))
  end.

Definition fields_of (o : object) : result (list (string * field)) :=
  match o with
  | ODict d => inr d
  | OJson (JDict kvs) => inr (prod_map id FJson <$> kvs)
  | OJson v => inl (TypeError (type_name v))
  | OResponse _ => inl (TypeError "<class 'requests.models.Response'>")
  end.

Definition field_subscript (d : list (string * field)) (key : string) : result field :=
  match Dict.get key d with
  | Some f => inr f
  | None => inl (KeyError (JStr key))
  end.

Definition field_truthy (f : field) : bool :=
  match f with
  | FJson v => truthy v
  | FDecoded d => match d with [] => false | _ => true end
  end.

(** The two dict comprehensions of [decode_model_api_response], over
    [model_api_response["model_outputs"].items()]. *)
Definition decode_outputs (encoded : bool) (model_outputs : field)
  : result (list (string * decoded)) :=
  match model_outputs with
  | FJson (JDict kvs) =>
      if encoded then dict_comprehension dec_or_iterate kvs
      else dict_comprehension
             (fun arr => rbind (of_lib (np_array arr)) (fun a => inr (DArray a))) kvs
  | FJson v => inl (AttributeError (type_name v))
  | FDecoded d =>
      if encoded then dict_comprehension dec_or_iterate_decoded d
      else dict_comprehension
             (fun arr => rbind (of_lib (np_array_of_decoded arr))
                           (fun a => inr (DArray a))) d
  end.

Definition decode_model_api_response (model_api_response : positive) : M positive :=
  fun st =>
    match heap st !! model_api_response with
    | None => (inl (TypeError "<class 'NoneType'>"), st)
    | Some o =>
        match
          rbind (fields_of o) (fun d =>
          rbind (field_subscript d "model_output_is_encoded") (fun flag =>
          rbind (field_subscript d "model_outputs") (fun outs =>
          rbind (decode_outputs (field_truthy flag) outs) (fun new =>
          inr (Dict.set "model_outputs" (FDecoded new) d)))))
        with
        | inl e => (inl e, st)
        | inr d' =>
            (inr model_api_response,
             {| world := world st; trace := trace st;
                heap := <[model_api_response := ODict d']> (heap st) |})
        end
    end.

(** ** The task poller *)

Definition task_result_request (self : client) (task_id : json) (token : string)
  : request :=
  {| method := GET;
     url := api_url self +:+ "/main/task_result/" +:+ fstr task_id;
     json_body := None;
     headers := [("Authorization", "Bearer " +:+ token)];
     verify := verify_ssl self |}.

(** The [while attempts < max_attempts] loop.  It hands back the final
    values of the two locals [attempts] and [result]. *)
Equations? while_attempts (self : client) (task_id : json)
    (max_attempts poll_interval attempts : Z) (st : state)
  : result (Z * option json) * state
  by wf (Z.to_nat (max_attempts - attempts)) lt :=
while_attempts self task_id max_attempts poll_interval attempts st
  with decide (attempts < max_attempts) := {
  | right _ => (inr (attempts, None), st)
  | left _ =>
      match (token <- credentials ;;
             requests (task_result_request self task_id token)) st with
      | (inl e, st1) => (inl e, st1)
      | (inr response, st1) =>
          match response_json response with
          | inl e => (inl e, st1)
          | inr resp =>
              if status_code response =? 200
              then (inr (attempts + 1, Some resp), st1)          (* break *)
              else
                match sleep poll_interval st1 with
                | (inl e, st2) => (inl e, st2)
                | (inr _, st2) =>
                    while_attempts self task_id max_attempts poll_interval
                      (attempts + 1) st2
                end
          end
      end }.
Proof. lia. Qed.

Definition _wait_for_task (self : client) (task_id : json)
    (max_attempts_arg poll_interval_arg : option Z) : M json :=
  let max_attempts :=
    match max_attempts_arg with None => max_attempts self | Some n => n end in
  let poll_interval :=
    match poll_interval_arg with None => poll_interval self | Some n => n end in
  r <- while_attempts self task_id max_attempts poll_interval 0 ;;
  match r.2 with
  | None => raise (TypeError "<class 'NoneType'>")    (* None["result"] *)
  | Some result => lift (subscript result "result")
  end.

(** ** The facade *)

Definition supported_prediction_methods : list string :=
  ["embedding"; "sequence-classification"; "token-classification";
   "generation"; "question-answering"].

Definition predict (self : client) (model_identifier prediction_method : string)
    (input_data : json) : M pyobj :=
  if negb (bool_decide (prediction_method ∈ supported_prediction_methods))
  then raise (ValueError_unknown_prediction_method prediction_method)
  else
    let url := api_url self +:+ "/main/" +:+ model_identifier +:+ "/"
               +:+ prediction_method in
    token <- credentials ;;
    response <- requests {| method := POST; url := url;
                            json_body := Some input_data;
                            headers := [("Authorization", "Bearer " +:+ token);
                                        ("Content-Type", "application/json")];
                            verify := verify_ssl self |} ;;
    result <- lift (response_json response) ;;
    if status_code response =? 200
    then
      task_id <- lift (subscript result "task_id") ;;
      r <- _wait_for_task self task_id None None ;;
      ret (Json r)
    else ret (Resp response).

Definition deployed_models (self : client) : M json :=
  token <- credentials ;;
  response <- requests {| method := GET;
                          url := api_url self +:+ "/models/deployed-models";
                          json_body := None;
                          headers := [("Authorization", "Bearer " +:+ token)];
                          verify := verify_ssl self |} ;;
  lift (response_json response).

Definition deploy (self : client) (model_attributes : json) : M pyobj :=
  token <- credentials ;;
  response <- requests {| method := POST;
                          url := api_url self +:+ "/models/deploy";
                          json_body := Some model_attributes;
                          headers := [("Authorization", "Bearer " +:+ token)];
                          verify := verify_ssl self |} ;;
  result <- lift (response_json response) ;;
  if status_code response =? 200
  then
    task_id <- lift (subscript result "task_id") ;;
    r <- _wait_for_task self task_id None (Some 20) ;;
    ret (Json r)
  else ret (Resp response).

Definition object_of (o : pyobj) : object :=
  match o with
  | Json (JDict kvs) => ODict (prod_map id FJson <$> kvs)
  | Json v => OJson v
  | Resp r => OResponse r
  end.

Definition __call__ (self : client) (model_name pipeline : string)
    (model_request : json) : M positive :=
  prediction <- predict self model_name pipeline model_request ;;
  prediction <- alloc (object_of prediction) ;;
  decode_model_api_response prediction.

(** [for x in xs: acc = body(acc, x)], the first exception escapes. *)
Definition for_each {A S : Type} (body : S -> A -> result S)
  : list A -> S -> result S :=
  fix go (xs : list A) (acc : S) : result S :=
    match xs with
    | [] => inr acc
    | x :: r =>
        match body acc x with
        | inl e => inl e
        | inr acc' => go r acc'
        end
    end.

(** The body of the innermost loop of [get_models_in_deployment]. *)
Definition scan_task (models_in_deployment : list (json * json)) (task : json)
  : result (list (json * json)) :=
  rbind (subscript task "name") (fun name =>
  if py_eq name (JStr "tasks.tasks.deploy_task")
  then
    rbind (subscript task "args") (fun args =>
    rbind (subscript_0 args) (fun args0 =>
    rbind (subscript args0 "MODEL_NAME") (fun model_name =>
    rbind (subscript task "args") (fun args' =>
    rbind (subscript_0 args') (fun args0' =>
    rbind (subscript args0' "MODEL_TYPE") (fun model_type =>
    if hashable model_name
    then inr (kv_set model_name model_type models_in_deployment)
    else inl (TypeError (type_name model_name))))))))
  else inr models_in_deployment).

Definition scan_tasks (models_in_deployment : list (json * json)) (tasks : json)
  : result (list (json * json)) :=
  rbind (iterate tasks) (fun ts => for_each scan_task ts models_in_deployment).

Definition scan_worker (models_in_deployment : list (json * json))
    (worker2tasks : json) : result (list (json * json)) :=
  rbind (dict_values worker2tasks) (fun queues =>
  for_each scan_tasks queues models_in_deployment).

Definition raise_for_status (response : response) : M unit :=
  if (400 <=? status_code response) && (status_code response <? 600)
  then raise (HTTPError (status_code response))
  else ret tt.

Definition get_models_in_deployment (self : client) : M (list (json * json)) :=
  token <- credentials ;;
  response <- requests {| method := GET;
                          url := api_url self +:+ "/models/task";
                          json_body := None;
                          headers := [("Authorization", "Bearer " +:+ token)];
                          verify := true |} ;;
  _ <- raise_for_status response ;;
  running_tasks <- lift (response_json response) ;;
  lift (rbind (dict_values running_tasks) (fun workers =>
        for_each scan_worker workers [])).

(** ** The deployment guard *)

(** ["adapter" if "adapter" in default_skill_args else "transformer"] *)
Definition model_type_of (default_skill_args : list (string * json)) : string :=
  if Dict.mem "adapter" default_skill_args then "adapter" else "transformer".

(** [model['model_name'] == model_name and model['model_type'] == model_type] *)
Definition model_matches (model_name : json) (model_type : string) (model : json)
  : result bool :=
  rbind (subscript model "model_name") (fun n =>
  if py_eq n model_name
  then rbind (subscript model "model_type") (fun t => inr (py_eq t (JStr model_type)))
  else inr false).

(** [any(p(x) for x in xs)] stops at the first true element. *)
Definition any {A : Type} (p : A -> result bool) : list A -> result bool :=
  fix go (xs : list A) : result bool :=
    match xs with
    | [] => inr false
    | x :: r =>
        match p x with
        | inl e => inl e
        | inr true => inr true
        | inr false => go r
        end
    end.

(** [d.get(key, "")] on the dictionary of [get_models_in_deployment]. *)
Definition get_or_empty (key : json) (d : list (json * json)) : result json :=
  if hashable key
  then inr (match kv_get key d with Some v => v | None => JStr "" end)
  else inl (TypeError (type_name key)).

Definition model_attributes_of (model_name : json) (model_type : string) : json :=
  JDict [("identifier", model_name);
         ("model_name", model_name);
         ("model_type", JStr model_type)].

Definition deploy_model_if_not_exists (self : client)
    (default_skill_args : list (string * json)) : M unit :=
  let model_name :=
    match Dict.get "base_model" default_skill_args with
    | Some v => v
    | None => JNull
    end in
  if negb (truthy model_name) then ret tt
  else
    let model_type := model_type_of default_skill_args in
    deployed_models <- deployed_models self ;;
    already <- lift (rbind (iterate deployed_models)
                       (any (model_matches model_name model_type))) ;;
    if already : bool then ret tt
    else
      currently_deploying_models <- get_models_in_deployment self ;;
      in_flight <- lift (get_or_empty model_name currently_deploying_models) ;;
      if py_eq in_flight (JStr model_type) then ret tt
      else
        _ <- deploy self (model_attributes_of model_name model_type) ;;
        ret tt.

(** ** The rest of the facade *)

Definition stats_request (self : client) (model_identifier token : string)
  : request :=
  {| method := GET;
     url := api_url self +:+ "/main/" +:+ model_identifier +:+ "/stats";
     json_body := None;
     headers := [("Authorization", "Bearer " +:+ token)];
     verify := verify_ssl self |}.

Definition stats (self : client) (model_identifier : string) : M json :=
  token <- credentials ;;
  response <- requests (stats_request self model_identifier token) ;;
  lift (response_json response).

Definition deployed_model_workers_request (self : client) (token : string)
  : request :=
  {| method := GET;
     url := api_url self +:+ "/models/deployed-model-workers";
     json_body := None;
     headers := [("Authorization", "Bearer " +:+ token)];
     verify := verify_ssl self |}.

Definition deployed_model_workers (self : client) : M json :=
  token <- credentials ;;
  response <- requests (deployed_model_workers_request self token) ;;
  lift (response_json response).

Definition remove_request (self : client) (model_identifier token : string)
  : request :=
  {| method := DELETE;
     url := api_url self +:+ "/models/remove/" +:+ model_identifier;
     json_body := Some (JStr model_identifier);
     headers := [("Authorization", "Bearer " +:+ token)];
     verify := verify_ssl self |}.

Definition remove (self : client) (model_identifier : string) : M pyobj :=
  token <- credentials ;;
  response <- requests (remove_request self model_identifier token) ;;
  result <- lift (response_json response) ;;
  if status_code response =? 200
  then
    task_id <- lift (subscript result "task_id") ;;
    r <- _wait_for_task self task_id None None ;;
    ret (Json r)
  else ret (Resp response).

Definition update_request (self : client) (model_identifier : string)
    (updated_attributes : json) (token : string) : request :=
  {| method := PATCH;
     url := api_url self +:+ "/models/update/" +:+ model_identifier;
     json_body := Some updated_attributes;
     headers := [("Authorization", "Bearer " +:+ token)];
     verify := verify_ssl self |}.

Definition update (self : client) (model_identifier : string)
    (updated_attributes : json) : M json :=
  token <- credentials ;;
  response <- requests
                (update_request self model_identifier updated_attributes token) ;;
  lift (response_json response).

(** [number] is an [int]; the f-string prints it with [str]. *)
Definition add_worker_request (self : client) (model_identifier : string)
    (number : Z) (token : string) : request :=
  {| method := PATCH;
     url := api_url self +:+ "/models/" +:+ model_identifier +:+ "/add_worker/"
            +:+ fstr (JInt number);
     json_body := Some (JStr model_identifier);
     headers := [("Authorization", "Bearer " +:+ token)];
     verify := verify_ssl self |}.

Definition add_worker (self : client) (model_identifier : string) (number : Z)
  : M pyobj :=
  token <- credentials ;;
  response <- requests (add_worker_request self model_identifier number token) ;;
  result <- lift (response_json response) ;;
  if status_code response =? 200
  then
    task_id <- lift (subscript result "task_id") ;;
    r <- _wait_for_task self task_id None None ;;
    ret (Json r)
  else ret (Resp response).

Definition remove_worker_request (self : client) (model_identifier : string)
    (number : Z) (token : string) : request :=
  {| method := PATCH;
     url := api_url self +:+ "/models/" +:+ model_identifier +:+ "/remove_worker/"
            +:+ fstr (JInt number);
     json_body := Some (JStr model_identifier);
     headers := [("Authorization", "Bearer " +:+ token)];
     verify := verify_ssl self |}.

Definition remove_worker (self : client) (model_identifier : string) (number : Z)
  : M pyobj :=
  token <- credentials ;;
  response <- requests (remove_worker_request self model_identifier number token) ;;
  result <- lift (response_json response) ;;
  if status_code response =? 200
  then
    task_id <- lift (subscript result "task_id") ;;
    r <- _wait_for_task self task_id None None ;;
    ret (Json r)
  else ret (Resp response).

End Operations.

(** ** A small platform and a scripted server, for running the client

  Arrays are one-dimensional vectors of 64-bit integers.  base64 follows
  [binascii.a2b_base64] in its lenient mode, [np.load] reads the [.npy]
  file that [np.save] writes for such a vector of one to nine elements and
  refuses every other input, and [np.array] takes a flat list of integers
  and refuses every other input.  The server answers the k-th request with
  the k-th response of its script, and with 404 once the script is over. *)

Module Fake.

Definition numerics : Numerics :=
  {| ndarray := list Z;
     pyfloat := Empty_set;
     lib_error := string;
     float_bool := fun x => match x with end;
     float_eq := fun x _ => match x with end;
     float_eq_int := fun x _ => match x with end |}.

(** The value of a base64 digit. *)
Definition b64_value (c : N) : option N :=
  if (65 <=? c)%N && (c <=? 90)%N then Some (c - 65)%N
  else if (97 <=? c)%N && (c <=? 122)%N then Some (c - 71)%N
  else if (48 <=? c)%N && (c <=? 57)%N then Some (c + 4)%N
  else if (c =? 43)%N then Some 62%N
  else if (c =? 47)%N then Some 63%N
  else None.

Fixpoint a2b_base64 (bs : list Byte.byte) (quad_pos leftchar pads : N)
    (out : list N) : string + list N :=
  match bs with
  | [] =>
      if (quad_pos =? 0)%N then inr (rev out)
      else if (quad_pos =? 1)%N
           then inl "binascii.Error: Invalid base64-encoded string"
           else inl "binascii.Error: Incorrect padding"
  | c :: r =>
      if (Byte.to_N c =? 61)%N
      then
        if (2 <=? quad_pos)%N && (4 <=? quad_pos + (pads + 1))%N
        then inr (rev out)
        else a2b_base64 r quad_pos leftchar (pads + 1)%N out
      else
        match b64_value (Byte.to_N c) with
        | None => a2b_base64 r quad_pos leftchar pads out
        | Some v =>
            if (quad_pos =? 0)%N then a2b_base64 r 1%N v 0%N out
            else if (quad_pos =? 1)%N
            then a2b_base64 r 2%N (v mod 16)%N 0%N ((leftchar * 4 + v / 16)%N :: out)
            else if (quad_pos =? 2)%N
            then a2b_base64 r 3%N (v mod 4)%N 0%N ((leftchar * 16 + v / 4)%N :: out)
            else a2b_base64 r 0%N 0%N 0%N ((leftchar * 64 + v)%N :: out)
        end
  end.

Definition byte_of_N (n : N) : Byte.byte :=
  match Byte.of_N n with Some b => b | None => Byte.x00 end.

Definition decodebytes (bs : list Byte.byte)
  : @lib_error numerics + list Byte.byte :=
  match a2b_base64 bs 0%N 0%N 0%N [] with
  | inl e => inl (e : @lib_error numerics)
  | inr out => inr (byte_of_N <$> out)
  end.

(** The 128 bytes that [np.save] puts before the data of a vector of [n]
    little-endian 64-bit integers, for a one-digit [n]. *)
Definition npy_header (n : N) : list N :=
  [147%N] ++ (Byte.to_N <$> String.list_byte_of_string "NUMPY")
  ++ [1; 0; 118; 0]%N
  ++ (Byte.to_N <$> String.list_byte_of_string
        "{'descr': '<i8', 'fortran_order': False, 'shape': (")
  ++ [(48 + n)%N]
  ++ (Byte.to_N <$> String.list_byte_of_string ",), }")
  ++ replicate 60 32%N ++ [10%N].

(** A little-endian two's-complement integer. *)
Fixpoint int_le (bs : list N) : Z :=
  match bs with
  | [] => 0
  | b :: r =>
      match r with
      | [] => if (b <? 128)%N then Z.of_N b else Z.of_N b - 256
      | _ :: _ => Z.of_N b + 256 * int_le r
      end
  end.

Fixpoint int64_le (bs : list N) (count : nat) : list Z :=
  match count with
  | O => []
  | S count' => int_le (take 8 bs) :: int64_le (drop 8 bs) count'
  end.

Definition load (bs : list Byte.byte) : @lib_error numerics + @ndarray numerics :=
  let ns : list N := Byte.to_N <$> bs in
  let n := ((length ns - 128) / 8)%nat in
  if bool_decide (1 <= n <= 9)%nat
     && bool_decide (length ns = 128 + 8 * n)%nat
     && bool_decide (take 128 ns = npy_header (N.of_nat n))
  then inr (int64_le (drop 128 ns) n : @ndarray numerics)
  else inl ("ValueError: not a file this platform reads" : @lib_error numerics).

(** [str(n)] of an [int]. *)
Fixpoint decimal (fuel : nat) (n : N) (acc : string) : string :=
  match fuel with
  | O => acc
  | S fuel' =>
      let acc' := String (Ascii.ascii_of_N (48 + n mod 10)) acc in
      if (n <? 10)%N then acc' else decimal fuel' (n / 10)%N acc'
  end.

Definition str_of_int (n : Z) : string :=
  let m := Z.abs_N n in
  let digits := decimal (S (N.to_nat (N.log2 m))) m "" in
  if n <? 0 then "-" +:+ digits else digits.

Fixpoint flat_ints (xs : list (@json numerics)) : option (list Z) :=
  match xs with
  | [] => Some []
  | JInt n :: r =>
      match flat_ints r with
      | Some ns => Some (n :: ns)
      | None => None
      end
  | _ :: _ => None
  end.

Definition not_found : @response numerics :=
  {| status_code := 404; body := Some (JDict []) |}.

Definition environment : @Environment numerics :=
  {| base64_decodebytes := decodebytes;
     np_load := load;
     np_array := fun v =>
       match v with
       | JList xs =>
           match flat_ints xs with
           | Some ns => inr (ns : @ndarray numerics)
           | None => inl ("unsupported" : @lib_error numerics)
           end
       | _ => inl ("unsupported" : @lib_error numerics)
       end;
     (* iterating a vector of integers gives numpy.int64 scalars *)
     ndarray_comprehension := fun a =>
       match a with
       | [] => inr (DList [])
       | _ => inl (ValueError_unexpected_value "<class 'numpy.int64'>")
       end;
     np_array_of_decoded := fun d =>
       match d with
       | DArray a => inr a
       | DList _ => inl ("unsupported" : @lib_error numerics)
       end;
     py_str := fun v =>
       match v with
       | JNull => "None"
       | JBool true => "True"
       | JBool false => "False"
       | JInt n => str_of_int n
       | _ => "..."
       end;
     sleep_limit := 9223372036;
     World := list (@response numerics);
     client_credentials := fun w => ("token", w);
     requests_send := fun _ w =>
       match w with
       | [] => (not_found, [])
       | r :: w' => (r, w')
       end |}.

Definition self : client :=
  {| square_api_url := Some "https://square.example";
     verify_ssl := true;
     max_attempts := 50;
     poll_interval := 2 |}.

Definition start (script : list (@response numerics)) : @state numerics environment :=
  {| world := (script : @World numerics environment); trace := []; heap := ∅ |}.

Definition pending : @response numerics :=
  {| status_code := 503; body := Some (JDict []) |}.

(** An answer whose body is not JSON, as a gateway sends it. *)
Definition bad_gateway : @response numerics :=
  {| status_code := 502; body := None |}.

Definition accepted : @response numerics :=
  {| status_code := 200; body := Some (JDict [("task_id", JStr "t1")]) |}.

Definition done_with (v : @json numerics) : @response numerics :=
  {| status_code := 200; body := Some (JDict [("result", v)]) |}.

(** base64 of the [.npy] files of the vectors [1, 2] and [3]. *)
Definition encoded_1_2 : string :=
  "k05VTVBZAQB2AHsnZGVzY3InOiAnPGk4JywgJ2ZvcnRyYW5fb3JkZXInOiBGYWxzZSwgJ3NoYXBlJzogKDIsKSwgfSAgICAgICAgICAgICAgICAgICAgICAgICAgICAgICAgICAgICAgICAgICAgICAgICAgICAgICAgICAgIAoBAAAAAAAAAAIAAAAAAAAA".

Definition encoded_3 : string :=
  "k05VTVBZAQB2AHsnZGVzY3InOiAnPGk4JywgJ2ZvcnRyYW5fb3JkZXInOiBGYWxzZSwgJ3NoYXBlJzogKDEsKSwgfSAgICAgICAgICAgICAgICAgICAgICAgICAgICAgICAgICAgICAgICAgICAgICAgICAgICAgICAgICAgIAoDAAAAAAAAAA==".

Definition encoded_prediction : @json numerics :=
  JDict [("model_outputs",
          JDict [("logits", JList [JStr encoded_1_2; JStr encoded_3])]);
         ("model_output_is_encoded", JBool true)].

Definition plain_prediction : @json numerics :=
  JDict [("model_outputs", JDict [("logits", JList [JInt 1; JInt 2])]);
         ("model_output_is_encoded", JBool false)].

Definition array (xs : list Z) : @decoded numerics := @DArray numerics xs.

(** A state whose store holds one parsed result, at reference 1. *)
Definition holding (v : @json numerics) : @state numerics environment :=
  {| world := ([] : @World numerics environment); trace := [];
     heap := {[1%positive := object_of (Json v)]} |}.

Definition answer (v : @json numerics) : @response numerics :=
  {| status_code := 200; body := Some v |}.

Definition model_record (model_name model_type : string) : @json numerics :=
  JDict [("identifier", JStr model_name); ("model_name", JStr model_name);
         ("model_type", JStr model_type)].

Definition deploy_task (model_name model_type : string) : @json numerics :=
  JDict [("name", JStr "tasks.tasks.deploy_task");
         ("args", JList [JDict [("MODEL_NAME", JStr model_name);
                                ("MODEL_TYPE", JStr model_type)]])].

Definition running_tasks (tasks : list (@json numerics)) : @json numerics :=
  JDict [("worker1", JDict [("active", JList tasks)])].

Definition unauthorized : @response numerics :=
  {| status_code := 401; body := Some (JDict [("detail", JStr "Unauthorized")]) |}.

Definition other_task : @json numerics :=
  JDict [("name", JStr "tasks.tasks.prediction_task"); ("args", JList [])].

End Fake.

(** * Properties *)

Section Properties.

Context `{Environment}.

Notation "x <- m ;; k" := (bind m (fun x => k))
  (at level 100, m at next level, right associativity).

(** ** Notions used to state the properties *)

(** The container shape of a value: a leaf, or a sequence of shapes. *)
Inductive shape : Type :=
| Leaf
| Seq (children : list shape).

Fixpoint json_shape (v : json) : shape :=
  match v with
  | JList xs => Seq (json_shape <$> xs)
  | _ => Leaf
  end.

Fixpoint decoded_shape (d : decoded) : shape :=
  match d with
  | DArray _ => Leaf
  | DList ds => Seq (decoded_shape <$> ds)
  end.

(** A nested ordered sequence of strings: a string, or a list of such. *)
Fixpoint nested_strings (v : json) : bool :=
  match v with
  | JStr _ => true
  | JList xs => forallb nested_strings xs
  | _ => false
  end.

(** The leaves, left to right. *)
Fixpoint leaves (v : json) : list string :=
  match v with
  | JStr s => [s]
  | JList xs => concat (leaves <$> xs)
  | _ => []
  end.

Fixpoint arrays (d : decoded) : list ndarray :=
  match d with
  | DArray a => [a]
  | DList ds => concat (arrays <$> ds)
  end.

(** The HTTP requests of a trace, the sleeps of a trace. *)
Definition http_requests (tr : list event) : list request :=
  omap (fun e => match e with Http r => Some r | _ => None end) tr.

Definition sleeps (tr : list event) : list Z :=
  omap (fun e => match e with Sleep s => Some s | _ => None end) tr.

(** The attribute sets posted to the deploy endpoint, oldest first. *)
Definition deploy_calls (self : client) (tr : list event) : list (option json) :=
  omap (fun r =>
          match method r with
          | POST =>
              if String.eqb (url r) (api_url self +:+ "/models/deploy")
              then Some (json_body r) else None
          | _ => None
          end) (http_requests tr).

(** What the task-result endpoint answers to the poll number [k] (from 0)
    when polling starts in world [w], and the world after that answer. *)
Fixpoint nth_poll (self : client) (task_id : json) (k : nat) (w : World)
  : response * World :=
  let (token, w1) := client_credentials w in
  let (resp, w2) := requests_send (task_result_request self task_id token) w1 in
  match k with
  | O => (resp, w2)
  | S k' => nth_poll self task_id k' w2
  end.

(** A record of [deployed_models()] that carries both attributes. *)
Definition is_model_record (model : json) : Prop :=
  exists kvs n t,
    model = JDict kvs /\ Dict.get "model_name" kvs = Some n
    /\ Dict.get "model_type" kvs = Some t.

Definition record_matches (model_name model_type : string) (model : json) : Prop :=
  exists kvs,
    model = JDict kvs /\ Dict.get "model_name" kvs = Some (JStr model_name)
    /\ Dict.get "model_type" kvs = Some (JStr model_type).

(** The state after [model_api_response["model_outputs"] = new]. *)
Definition assign_outputs (st : state) (l : positive)
    (d : list (string * field)) (new : list (string * decoded)) : state :=
  {| world := world st; trace := trace st;
     heap := <[l := ODict (Dict.set "model_outputs" (FDecoded new) d)]> (heap st) |}.

(** No [None], [bool] or number where [dec_or_iterate] would look: the
    elements of lists, at any depth.  Of an object only the keys are looked
    at. *)
Fixpoint scalar_free (v : json) : bool :=
  match v with
  | JStr _ | JDict _ => true
  | JList xs => forallb scalar_free xs
  | JNull | JBool _ | JInt _ | JFloat _ => false
  end.

(** The request of [get_models_in_deployment]; it passes no [verify]. *)
Definition models_task_request (self : client) (token : string) : request :=
  {| method := GET;
     url := api_url self +:+ "/models/task";
     json_body := None;
     headers := [("Authorization", "Bearer " +:+ token)];
     verify := true |}.

(** The model name and type that a task descriptor announces, when it is a
    deploy task whose first argument names them and the name is a string. *)
Definition deploy_entry (task : json) : option (string * json) :=
  match task with
  | JDict kvs =>
      match Dict.get "name" kvs with
      | Some (JStr name) =>
          if String.eqb name "tasks.tasks.deploy_task"
          then
            match Dict.get "args" kvs with
            | Some (JList (JDict args0 :: _)) =>
                match Dict.get "MODEL_NAME" args0 with
                | Some (JStr model_name) =>
                    match Dict.get "MODEL_TYPE" args0 with
                    | Some model_type => Some (model_name, model_type)
                    | None => None
                    end
                | _ => None
                end
            | _ => None
            end
          else None
      | _ => None
      end
  | _ => None
  end.

(** A task descriptor the scan can read: an object with a "name", and for
    a deploy task a first argument with a string "MODEL_NAME" and a
    "MODEL_TYPE". *)
Definition well_formed_task (task : json) : Prop :=
  exists kvs name,
    task = JDict kvs /\ Dict.get "name" kvs = Some name
    /\ (name = JStr "tasks.tasks.deploy_task" ->
        exists args0 rest model_name model_type,
          Dict.get "args" kvs = Some (JList (JDict args0 :: rest))
          /\ Dict.get "MODEL_NAME" args0 = Some (JStr model_name)
          /\ Dict.get "MODEL_TYPE" args0 = Some model_type).

(** Worker to queue to list of tasks, and the tasks in scan order. *)
Definition queue_tasks (tasks : json) : list json :=
  match tasks with JList ts => ts | _ => [] end.

Definition worker_tasks (worker2tasks : json) : list json :=
  match worker2tasks with
  | JDict queues => concat (queue_tasks <$> Dict.values queues)
  | _ => []
  end.

Definition all_tasks (running_tasks : json) : list json :=
  match running_tasks with
  | JDict workers => concat (worker_tasks <$> Dict.values workers)
  | _ => []
  end.

Definition well_formed_queue (tasks : json) : Prop :=
  exists ts, tasks = JList ts /\ Forall well_formed_task ts.

Definition well_formed_worker (worker2tasks : json) : Prop :=
  exists queues,
    worker2tasks = JDict queues /\ Forall well_formed_queue (Dict.values queues).

Definition well_formed_running_tasks (running_tasks : json) : Prop :=
  exists workers,
    running_tasks = JDict workers
    /\ Forall well_formed_worker (Dict.values workers).

Definition record_deployment (models_in_deployment : list (json * json))
    (task : json) : list (json * json) :=
  match deploy_entry task with
  | Some (model_name, model_type) =>
      kv_set (JStr model_name) model_type models_in_deployment
  | None => models_in_deployment
  end.

(** The type announced by the last deploy task for [model_name]. *)
Definition last_deploy_type (model_name : string) (tasks : list json)
  : option json :=
  last (omap (fun task =>
                match deploy_entry task with
                | Some (n, model_type) =>
                    if String.eqb n model_name then Some model_type else None
                | None => None
                end) tasks).

(** One credential call and one request built from its token. *)
Definition exchange (mk : string -> request) (st : state) : response * state :=
  let (token, w1) := client_credentials (world st) in
  let (resp, w2) := requests_send (mk token) w1 in
  (resp, {| world := w2; trace := trace st ++ [Credentials; Http (mk token)];
            heap := heap st |}).

Definition credential_calls (tr : list event) : nat :=
  length (omap (fun e => match e with Credentials => Some tt | _ => None end) tr).

(** What the poller may leave in the trace. *)
Definition poll_event (self : client) (task_id : json) (interval : Z) (e : event)
  : Prop :=
  match e with
  | Credentials => True
  | Http r => exists token, r = task_result_request self task_id token
  | Sleep s => s = interval
  end.

(** The operations that start a task on the server. *)
Inductive async_op : Type :=
| OpPredict (model_identifier prediction_method : string) (input_data : json)
| OpDeploy (model_attributes : json)
| OpRemove (model_identifier : string)
| OpAddWorker (model_identifier : string) (number : Z)
| OpRemoveWorker (model_identifier : string) (number : Z).

Definition run_async (self : client) (op : async_op) : M pyobj :=
  match op with
  | OpPredict model_identifier prediction_method input_data =>
      predict self model_identifier prediction_method input_data
  | OpDeploy model_attributes => deploy self model_attributes
  | OpRemove model_identifier => remove self model_identifier
  | OpAddWorker model_identifier number => add_worker self model_identifier number
  | OpRemoveWorker model_identifier number =>
      remove_worker self model_identifier number
  end.

(** The request each of them sends first. *)
Definition async_request (self : client) (op : async_op) (token : string) : request :=
  match op with
  | OpPredict model_identifier prediction_method input_data =>
      {| method := POST;
         url := api_url self +:+ "/main/" +:+ model_identifier +:+ "/"
                +:+ prediction_method;
         json_body := Some input_data;
         headers := [("Authorization", "Bearer " +:+ token);
                     ("Content-Type", "application/json")];
         verify := verify_ssl self |}
  | OpDeploy model_attributes =>
      {| method := POST;
         url := api_url self +:+ "/models/deploy";
         json_body := Some model_attributes;
         headers := [("Authorization", "Bearer " +:+ token)];
         verify := verify_ssl self |}
  | OpRemove model_identifier => remove_request self model_identifier token
  | OpAddWorker model_identifier number =>
      add_worker_request self model_identifier number token
  | OpRemoveWorker model_identifier number =>
      remove_worker_request self model_identifier number token
  end.

(** [predict] sends nothing for a method it does not support. *)
Definition async_supported (op : async_op) : Prop :=
  match op with
  | OpPredict _ prediction_method _ =>
      prediction_method ∈ supported_prediction_methods
  | _ => True
  end.

(** The [poll_interval] argument each of them gives the poller, and the
    interval the poller then sleeps. *)
Definition async_interval_arg (op : async_op) : option Z :=
  match op with
  | OpDeploy _ => Some 20
  | _ => None
  end.

Definition async_interval (self : client) (op : async_op) : Z :=
  match op with
  | OpDeploy _ => 20
  | _ => poll_interval self
  end.

(** The operations that answer at once. *)
Inductive sync_op : Type :=
| OpStats (model_identifier : string)
| OpDeployedModels
| OpDeployedModelWorkers
| OpUpdate (model_identifier : string) (updated_attributes : json).

Definition run_sync (self : client) (op : sync_op) : M json :=
  match op with
  | OpStats model_identifier => stats self model_identifier
  | OpDeployedModels => deployed_models self
  | OpDeployedModelWorkers => deployed_model_workers self
  | OpUpdate model_identifier updated_attributes =>
      update self model_identifier updated_attributes
  end.

Definition sync_request (self : client) (op : sync_op) (token : string) : request :=
  match op with
  | OpStats model_identifier => stats_request self model_identifier token
  | OpDeployedModels =>
      {| method := GET;
         url := api_url self +:+ "/models/deployed-models";
         json_body := None;
         headers := [("Authorization", "Bearer " +:+ token)];
         verify := verify_ssl self |}
  | OpDeployedModelWorkers => deployed_model_workers_request self token
  | OpUpdate model_identifier updated_attributes =>
      update_request self model_identifier updated_attributes token
  end.

(** ** Dictionaries *)

Lemma dict_get_set_eq {V : Type} (k : string) (v : V) (d : list (string * V)) :
  Dict.get k (Dict.set k v d) = Some v.
Proof.
  induction d as [|[k' v'] r IH]; simpl.
  - by rewrite String.eqb_refl.
  - destruct (String.eqb k' k) eqn:E; simpl; rewrite E; auto.
Qed.

Lemma dict_get_set_ne {V : Type} (k k0 : string) (v : V) (d : list (string * V)) :
  k0 <> k -> Dict.get k0 (Dict.set k v d) = Dict.get k0 d.
Proof.
  intros Hne. induction d as [|[k' v'] r IH]; simpl.
  - destruct (String.eqb k k0) eqn:E; [|done].
    apply String.eqb_eq in E. congruence.
  - destruct (String.eqb k' k) eqn:E; simpl.
    + apply String.eqb_eq in E. subst k'.
      destruct (String.eqb k k0) eqn:E0; [|done].
      apply String.eqb_eq in E0. congruence.
    + by rewrite IH.
Qed.

Lemma dict_keys_set_present {V : Type} (k : string) (v v0 : V) (d : list (string * V)) :
  Dict.get k d = Some v0 -> Dict.keys (Dict.set k v d) = Dict.keys d.
Proof.
  unfold Dict.keys. induction d as [|[k' v'] r IH]; simpl; [done|].
  destruct (String.eqb k' k) eqn:E; simpl; [done|].
  intros Hget. f_equal. by apply IH.
Qed.

Lemma dict_mem_keys {V : Type} (k : string) (d : list (string * V)) :
  Dict.mem k d = true <-> k ∈ Dict.keys d.
Proof.
  unfold Dict.mem, Dict.keys. induction d as [|[k' v'] r IH]; simpl.
  - split; [done|]. by intros ?%elem_of_nil.
  - destruct (String.eqb k' k) eqn:E.
    + apply String.eqb_eq in E. subst. split; [|done]. intros _. left.
    + rewrite IH. apply String.eqb_neq in E. split.
      * intros ?. by right.
      * intros [?|?]%elem_of_cons; [congruence|done].
Qed.

(** ** Induction on JSON values and on decoded values *)

Lemma json_induction (P : json -> Prop) :
  P JNull ->
  (forall b, P (JBool b)) ->
  (forall n, P (JInt n)) ->
  (forall x, P (JFloat x)) ->
  (forall s, P (JStr s)) ->
  (forall xs, Forall P xs -> P (JList xs)) ->
  (forall kvs, Forall (fun kv => P kv.2) kvs -> P (JDict kvs)) ->
  forall v, P v.
Proof.
  intros Hnull Hbool Hint Hfloat Hstr Hlist Hdict.
  fix IH 1. intros [ | b | n | x | s | xs | kvs ].
  - exact Hnull.
  - apply Hbool.
  - apply Hint.
  - apply Hfloat.
  - apply Hstr.
  - apply Hlist. induction xs as [|x xs IHxs]; constructor; [apply IH | exact IHxs].
  - apply Hdict.
    induction kvs as [|[k v] kvs IHkvs]; constructor; [apply IH | exact IHkvs].
Qed.

Lemma comprehension_inr {A B : Type} (f : A -> result B) (xs : list A) (ys : list B) :
  comprehension f xs = inr ys <-> Forall2 (fun x y => f x = inr y) xs ys.
Proof.
  revert ys. induction xs as [|x r IH]; intros ys; simpl.
  - split.
    + intros [= <-]. constructor.
    + by intros ->%Forall2_nil_inv_l.
  - destruct (f x) as [e|y] eqn:Hfx.
    + split; [done|]. intros (y & ys' & Hy & _ & _)%Forall2_cons_inv_l. congruence.
    + destruct (comprehension f r) as [e|ys'] eqn:Hr.
      * split; [done|]. intros (y' & ys' & _ & Hys & _)%Forall2_cons_inv_l.
        apply IH in Hys. congruence.
      * split.
        -- intros [= <-]. constructor; [done|]. by apply IH.
        -- intros (y' & ys'' & Hy & Hys & ->)%Forall2_cons_inv_l.
           apply IH in Hys. congruence.
Qed.

Lemma comprehension_total {A B : Type} (f : A -> result B) (xs : list A) :
  Forall (fun x => exists y, f x = inr y) xs -> exists ys, comprehension f xs = inr ys.
Proof.
  induction 1 as [|x r [y Hy] _ [ys Hys]]; simpl.
  - by exists [].
  - rewrite Hy, Hys. by eexists.
Qed.

(** ** The payload codec: structure preservation *)

Lemma dec_or_iterate_str (s : string) :
  dec_or_iterate (JStr s) = rbind (_decode s) (fun arr => inr (DArray arr)).
Proof. reflexivity. Qed.

Lemma dec_or_iterate_list (xs : list json) :
  dec_or_iterate (JList xs)
  = rbind (comprehension dec_or_iterate xs) (fun ds => inr (DList ds)).
Proof. reflexivity. Qed.

Lemma dec_or_iterate_shape (val : json) :
  nested_strings val = true ->
  forall out, dec_or_iterate val = inr out ->
    decoded_shape out = json_shape val
    /\ Forall2 (fun s a => _decode s = inr a) (leaves val) (arrays out).
Proof.
  induction val as [ | b | n | x | s | xs IH | kvs _ ] using json_induction;
    try discriminate.
  - intros _ out. rewrite dec_or_iterate_str.
    destruct (_decode s) as [e|a] eqn:Hs; simpl; [done|].
    intros [= <-]. simpl. split; [done|]. by constructor.
  - intros Hnested out. rewrite dec_or_iterate_list.
    destruct (comprehension dec_or_iterate xs) as [e|ds] eqn:Hds; simpl; [done|].
    intros [= <-]. apply comprehension_inr in Hds.
    simpl in Hnested. cbn [decoded_shape json_shape leaves arrays].
    revert IH Hnested.
    induction Hds as [|x d xs ds Hx Hrest IHrest]; intros IH Hnested.
    + split; [done|]. constructor.
    + apply Forall_cons in IH as [IHx IHxs].
      simpl in Hnested. apply andb_true_iff in Hnested as [Hnx Hnxs].
      destruct (IHx Hnx d Hx) as [Hshape Hleaves].
      destruct (IHrest IHxs Hnxs) as [Hshapes Hleavess].
      split.
      * rewrite !fmap_cons. injection Hshapes as Hshapes. by rewrite Hshape, Hshapes.
      * rewrite !fmap_cons. simpl. by apply Forall2_app.
Qed.

Lemma dec_or_iterate_total (val : json) :
  nested_strings val = true ->
  Forall (fun s => exists a, _decode s = inr a) (leaves val) ->
  exists out, dec_or_iterate val = inr out.
Proof.
  induction val as [ | b | n | x | s | xs IH | kvs _ ] using json_induction;
    try discriminate.
  - intros _ [[a Ha] _]%Forall_cons. rewrite dec_or_iterate_str, Ha. by eexists.
  - intros Hnested Hleaves. rewrite dec_or_iterate_list.
    destruct (comprehension_total dec_or_iterate xs) as [ds Hds]; [|rewrite Hds; by eexists].
    simpl in Hnested, Hleaves. revert Hnested Hleaves.
    induction IH as [|x xs IHx _ IHxs]; intros Hnested Hleaves; [constructor|].
    simpl in Hnested. apply andb_true_iff in Hnested as [Hnx Hnxs].
    rewrite fmap_cons in Hleaves. simpl in Hleaves.
    apply Forall_app in Hleaves as [Hlx Hlxs].
    constructor; auto.
Qed.

(** C8.  Decoding a nested ordered sequence of encoded strings succeeds, and
    the decoded value has the shape of the input (the same nesting, the same
    number of elements at every level) with the array decoded from each leaf
    string at the place of that string, in the same order. *)
Theorem dec_or_iterate_preserves_structure (val : json) :
  nested_strings val = true ->
  Forall (fun s => exists a, _decode s = inr a) (leaves val) ->
  exists out,
    dec_or_iterate val = inr out
    /\ decoded_shape out = json_shape val
    /\ Forall2 (fun s a => _decode s = inr a) (leaves val) (arrays out).
Proof.
  intros Hnested Hleaves.
  destruct (dec_or_iterate_total val Hnested Hleaves) as [out Hout].
  exists out. split; [done|]. by apply dec_or_iterate_shape.
Qed.

(** The same, for the whole of "model_outputs" on the encoded branch: the
    keys stay as they are and in order, and each value keeps its shape. *)
Lemma decode_outputs_encoded_structure (kvs : list (string * json)) :
  Forall (fun kv => nested_strings kv.2 = true
                    /\ Forall (fun s => exists a, _decode s = inr a) (leaves kv.2))
         kvs ->
  exists new,
    decode_outputs true (FJson (JDict kvs)) = inr new
    /\ Forall2 (fun kv kd =>
                  kd.1 = kv.1
                  /\ decoded_shape kd.2 = json_shape kv.2
                  /\ Forall2 (fun s a => _decode s = inr a)
                             (leaves kv.2) (arrays kd.2))
               kvs new.
Proof.
  simpl. unfold dict_comprehension.
  induction 1 as [|[k v] r [Hnested Hleaves] _ (new & Hnew & Hall)]; simpl.
  - exists []. split; [done|]. constructor.
  - destruct (dec_or_iterate_total v Hnested Hleaves) as [out Hout].
    rewrite Hout. simpl. rewrite Hnew.
    exists ((k, out) :: new). split; [done|].
    constructor; [|done]. simpl. split; [done|].
    by apply dec_or_iterate_shape.
Qed.

(** ** The payload codec: the response mapping *)

Lemma decode_unfold (st : state) (l : positive) o d flag outs :
  heap st !! l = Some o ->
  fields_of o = inr d ->
  Dict.get "model_output_is_encoded" d = Some flag ->
  Dict.get "model_outputs" d = Some outs ->
  decode_model_api_response l st
  = match decode_outputs (field_truthy flag) outs with
    | inl e => (inl e, st)
    | inr new => (inr l, assign_outputs st l d new)
    end.
Proof.
  intros Ho Hd Hflag Houts. unfold decode_model_api_response, field_subscript.
  rewrite Ho, Hd. simpl. rewrite Hflag. simpl. rewrite Houts. simpl.
  by destruct (decode_outputs (field_truthy flag) outs).
Qed.

Lemma decode_inr_inv (st st' : state) (l l' : positive) :
  decode_model_api_response l st = (inr l', st') ->
  exists o d flag outs new,
    heap st !! l = Some o
    /\ fields_of o = inr d
    /\ Dict.get "model_output_is_encoded" d = Some flag
    /\ Dict.get "model_outputs" d = Some outs
    /\ decode_outputs (field_truthy flag) outs = inr new
    /\ l' = l /\ st' = assign_outputs st l d new.
Proof.
  unfold decode_model_api_response, field_subscript.
  destruct (heap st !! l) as [o|] eqn:Ho; [|done].
  destruct (fields_of o) as [e|d] eqn:Hd; simpl; [done|].
  destruct (Dict.get "model_output_is_encoded" d) as [flag|] eqn:Hflag; simpl; [|done].
  destruct (Dict.get "model_outputs" d) as [outs|] eqn:Houts; simpl; [|done].
  destruct (decode_outputs (field_truthy flag) outs) as [e|new] eqn:Hnew; simpl; [done|].
  intros [= <- <-]. by exists o, d, flag, outs, new.
Qed.

Lemma decode_inl_state (st : state) (l : positive) (e : exn) :
  (decode_model_api_response l st).1 = inl e ->
  (decode_model_api_response l st).2 = st.
Proof.
  unfold decode_model_api_response.
  destruct (heap st !! l) as [o|]; [|done].
  by destruct (rbind (fields_of o) _).
Qed.

(** C9.  When [decode_model_api_response] returns, it returns the reference
    it was given; the object behind it has the same keys in the same order,
    every key other than "model_outputs" has its original value, and
    "model_outputs" holds the decoded form of its original value. *)
Theorem decode_returns_same_mapping (st st' : state) (l l' : positive) :
  decode_model_api_response l st = (inr l', st') ->
  l' = l
  /\ exists o d d' flag outs new,
       heap st !! l = Some o /\ fields_of o = inr d
       /\ heap st' !! l = Some (ODict d')
       /\ Dict.keys d' = Dict.keys d
       /\ (forall k, k <> "model_outputs" -> Dict.get k d' = Dict.get k d)
       /\ Dict.get "model_output_is_encoded" d = Some flag
       /\ Dict.get "model_outputs" d = Some outs
       /\ decode_outputs (field_truthy flag) outs = inr new
       /\ Dict.get "model_outputs" d' = Some (FDecoded new).
Proof.
  intros (o & d & flag & outs & new & Ho & Hd & Hflag & Houts & Hnew & -> & ->)
    %decode_inr_inv.
  split; [done|].
  exists o, d, (Dict.set "model_outputs" (FDecoded new) d), flag, outs, new.
  repeat split; try done.
  - simpl. apply lookup_insert_eq.
  - by eapply dict_keys_set_present.
  - intros k Hk. by apply dict_get_set_ne.
  - apply dict_get_set_eq.
Qed.

(** C5, as the code has it.  Decoding touches nothing but the mapping it is
    given: the server, the trace and every other object of the store are
    as before, and a decode that raises leaves the whole state as it was.
    In the mapping itself only the entry "model_outputs" is assigned. *)
Theorem decode_frame (st : state) (l : positive) :
  world (decode_model_api_response l st).2 = world st
  /\ trace (decode_model_api_response l st).2 = trace st
  /\ (forall l0, l0 <> l ->
        heap (decode_model_api_response l st).2 !! l0 = heap st !! l0)
  /\ (forall e, (decode_model_api_response l st).1 = inl e ->
        (decode_model_api_response l st).2 = st)
  /\ (forall l', (decode_model_api_response l st).1 = inr l' ->
        exists o d d',
          heap st !! l = Some o /\ fields_of o = inr d
          /\ heap (decode_model_api_response l st).2 !! l = Some (ODict d')
          /\ (forall k, k <> "model_outputs" -> Dict.get k d' = Dict.get k d)).
Proof.
  destruct (decode_model_api_response l st) as [[e|l'] st'] eqn:Hrun.
  - pose proof (decode_inl_state st l e) as Hst. rewrite Hrun in Hst.
    simpl in *. rewrite (Hst eq_refl). by repeat split.
  - apply decode_inr_inv in Hrun
      as (o & d & flag & outs & new & Ho & Hd & _ & _ & _ & -> & ->).
    simpl. repeat split; try done.
    + intros l0 Hl0. by apply lookup_insert_ne.
    + intros _ _. exists o, d, (Dict.set "model_outputs" (FDecoded new) d).
      repeat split; try done.
      * apply lookup_insert_eq.
      * intros k Hk. by apply dict_get_set_ne.
Qed.

(** C10.  The unexpected-value [ValueError] of [dec_or_iterate] is raised on
    the encoded branch only.  With a false flag no leaf is inspected: that
    error cannot be raised, and when "model_outputs" is a JSON object each
    of its values goes to [np.array] as it is, whatever its type. *)
Theorem decode_plain_no_leaf_validation (st : state) (l : positive) o d flag :
  heap st !! l = Some o ->
  fields_of o = inr d ->
  Dict.get "model_output_is_encoded" d = Some flag ->
  (forall t, (decode_model_api_response l st).1 = inl (ValueError_unexpected_value t) ->
     field_truthy flag = true)
  /\ (field_truthy flag = false ->
      (forall t,
         (decode_model_api_response l st).1 <> inl (ValueError_unexpected_value t))
      /\ (forall kvs, Dict.get "model_outputs" d = Some (FJson (JDict kvs)) ->
           decode_model_api_response l st
           = match dict_comprehension
                     (fun arr => rbind (of_lib (np_array arr))
                                   (fun a => inr (DArray a))) kvs with
             | inl e => (inl e, st)
             | inr new => (inr l, assign_outputs st l d new)
             end)).
Proof.
  intros Ho Hd Hflag.
  assert (field_truthy flag = false ->
          forall t, (decode_model_api_response l st).1
                    <> inl (ValueError_unexpected_value t)) as Hnever.
  { intros Hfalse t. unfold decode_model_api_response, field_subscript.
    rewrite Ho, Hd. simpl. rewrite Hflag. simpl.
    destruct (Dict.get "model_outputs" d) as [outs|]; simpl; [|done].
    rewrite Hfalse.
    assert (forall {A : Type} (f : A -> lib_error + ndarray) (xs : list (string * A)),
              dict_comprehension
                (fun arr => rbind (of_lib (f arr)) (fun a => inr (DArray a))) xs
              <> inl (ValueError_unexpected_value t)) as Hlib.
    { intros A f xs. unfold dict_comprehension.
      induction xs as [|[k v] r IH]; simpl; [done|].
      destruct (f v) as [e|a]; simpl; [done|].
      destruct (comprehension _ r) as [e|ys]; [|done].
      intros [= ->]. by apply IH. }
    destruct outs as [v|dd]; simpl.
    - destruct v; simpl; try done.
      destruct (dict_comprehension _ kvs) as [e|new] eqn:Hc; simpl; [|done].
      intros [= ->]. by eapply Hlib.
    - destruct (dict_comprehension _ dd) as [e|new] eqn:Hc; simpl; [|done].
      intros [= ->]. by eapply Hlib. }
  split.
  - intros t Ht. destruct (field_truthy flag) eqn:Hf; [done|].
    by destruct (Hnever eq_refl t).
  - intros Hfalse. split; [by apply Hnever|].
    intros kvs Houts. rewrite (decode_unfold st l o d flag _ Ho Hd Hflag Houts).
    by rewrite Hfalse.
Qed.

(** ** The task poller *)

Lemma while_attempts_eq (self : client) (task_id : json)
    (max_attempts poll_interval attempts : Z) (st : state) :
  while_attempts self task_id max_attempts poll_interval attempts st
  = if decide (attempts < max_attempts)
    then
      match (token <- credentials ;;
             requests (task_result_request self task_id token)) st with
      | (inl e, st1) => (inl e, st1)
      | (inr response, st1) =>
          match response_json response with
          | inl e => (inl e, st1)
          | inr resp =>
              if status_code response =? 200
              then (inr (attempts + 1, Some resp), st1)
              else
                match sleep poll_interval st1 with
                | (inl e, st2) => (inl e, st2)
                | (inr _, st2) =>
                    while_attempts self task_id max_attempts poll_interval
                      (attempts + 1) st2
                end
          end
      end
    else (inr (attempts, None), st).
Proof.
  rewrite while_attempts_equation_1.
  destruct (decide (attempts < max_attempts)); reflexivity.
Qed.

Lemma nth_poll_S (self : client) (task_id : json) (k : nat) (w : World) :
  nth_poll self task_id (S k) w
  = nth_poll self task_id k (nth_poll self task_id 0 w).2.
Proof.
  simpl. destruct (client_credentials w) as [token w1].
  by destruct (requests_send (task_result_request self task_id token) w1).
Qed.

Arguments nth_poll : simpl never.

Lemma poll_request_run (self : client) (task_id : json) (st : state) :
  (token <- credentials ;; requests (task_result_request self task_id token)) st
  = (inr (nth_poll self task_id 0 (world st)).1,
     {| world := (nth_poll self task_id 0 (world st)).2;
        trace := trace st ++
                 [Credentials;
                  Http (task_result_request self task_id
                          (client_credentials (world st)).1)];
        heap := heap st |}).
Proof.
  unfold bind, credentials, requests, nth_poll. simpl.
  destruct (client_credentials (world st)) as [token w1]. simpl.
  destruct (requests_send (task_result_request self task_id token) w1). simpl.
  by rewrite <- app_assoc.
Qed.

Lemma http_requests_app (a b : list event) :
  http_requests (a ++ b) = (http_requests a ++ http_requests b)%list.
Proof. apply omap_app. Qed.

Lemma sleeps_app (a b : list event) :
  sleeps (a ++ b) = (sleeps a ++ sleeps b)%list.
Proof. apply omap_app. Qed.

Lemma sleep_in_range (seconds : Z) (st : state) :
  0 <= seconds <= sleep_limit ->
  sleep seconds st
  = (inr tt, {| world := world st; trace := trace st ++ [Sleep seconds];
                heap := heap st |}).
Proof.
  intros [Hlo Hhi]. unfold sleep.
  destruct (seconds <? 0) eqn:Hneg; [lia|].
  by destruct (sleep_limit <? seconds) eqn:Hbig; [lia|].
Qed.

(** The loop, when the first 200 comes at poll [k] within the budget and
    the answers before it are pending answers that parse. *)
Lemma while_attempts_success (self : client) (task_id : json)
    (max_attempts poll_interval : Z) (k : nat) (resp : json) :
  0 <= poll_interval <= sleep_limit ->
  forall (attempts : Z) (st : state),
    attempts + Z.of_nat k < max_attempts ->
    (forall i, (i < k)%nat ->
       status_code (nth_poll self task_id i (world st)).1 <> 200
       /\ is_Some (body (nth_poll self task_id i (world st)).1)) ->
    status_code (nth_poll self task_id k (world st)).1 = 200 ->
    response_json (nth_poll self task_id k (world st)).1 = inr resp ->
    exists st' delta,
      while_attempts self task_id max_attempts poll_interval attempts st
      = (inr (attempts + Z.of_nat k + 1, Some resp), st')
      /\ world st' = (nth_poll self task_id k (world st)).2
      /\ heap st' = heap st
      /\ trace st' = (trace st ++ delta)%list
      /\ length (http_requests delta) = S k
      /\ sleeps delta = replicate k poll_interval.
Proof.
  intros Hinterval.
  induction k as [|k IH]; intros attempts st Hbudget Hbefore Hk Hresp.
  - rewrite while_attempts_eq, poll_request_run.
    destruct (decide (attempts < max_attempts)) as [_|]; [|lia].
    apply Z.eqb_eq in Hk. rewrite Hresp, Hk.
    eexists _, _. split; [by rewrite Z.add_0_r|]. simpl. by repeat split.
  - rewrite while_attempts_eq, poll_request_run.
    destruct (decide (attempts < max_attempts)) as [_|]; [|lia].
    destruct (Hbefore 0%nat ltac:(lia)) as [Hfirst%Z.eqb_neq [v Hv]].
    unfold response_json at 1. rewrite Hv, Hfirst.
    rewrite sleep_in_range by done.
    match goal with
    | |- context [while_attempts _ _ _ _ _ ?s] => destruct (IH (attempts + 1) s)
        as (st' & delta & Hrun & Hworld & Hheap & Htrace & Hreqs & Hsleeps)
    end.
    + lia.
    + intros i Hi. simpl. rewrite <- nth_poll_S. apply Hbefore. lia.
    + simpl. by rewrite <- nth_poll_S.
    + simpl. by rewrite <- nth_poll_S.
    + simpl in *. rewrite <- nth_poll_S in Hworld.
      rewrite Hrun. eexists _, _. split; [do 3 f_equal; lia|].
      split; [done|]. split; [done|]. split.
      { rewrite Htrace, <- !app_assoc. reflexivity. }
      rewrite !http_requests_app, !sleeps_app, Hsleeps. simpl.
      rewrite Hreqs. done.
Qed.

(** The loop, when no poll within the budget is answered with 200 and the
    answers are pending answers that parse. *)
Lemma while_attempts_exhausted (self : client) (task_id : json)
    (max_attempts poll_interval : Z) (n : nat) :
  0 <= poll_interval <= sleep_limit ->
  forall (attempts : Z) (st : state),
    n = Z.to_nat (max_attempts - attempts) ->
    (forall i, (i < n)%nat ->
       status_code (nth_poll self task_id i (world st)).1 <> 200
       /\ is_Some (body (nth_poll self task_id i (world st)).1)) ->
    exists st' delta,
      while_attempts self task_id max_attempts poll_interval attempts st
      = (inr (attempts + Z.of_nat n, None), st')
      /\ heap st' = heap st
      /\ trace st' = (trace st ++ delta)%list
      /\ length (http_requests delta) = n
      /\ sleeps delta = replicate n poll_interval.
Proof.
  intros Hinterval. induction n as [|n IH]; intros attempts st Hn Hnever.
  - rewrite while_attempts_eq.
    destruct (decide (attempts < max_attempts)); [lia|].
    exists st, []. rewrite Z.add_0_r, app_nil_r. by repeat split.
  - rewrite while_attempts_eq, poll_request_run.
    destruct (decide (attempts < max_attempts)) as [_|]; [|lia].
    destruct (Hnever 0%nat ltac:(lia)) as [Hfirst%Z.eqb_neq [v Hv]].
    unfold response_json at 1. rewrite Hv, Hfirst.
    rewrite sleep_in_range by done.
    match goal with
    | |- context [while_attempts _ _ _ _ _ ?s] => destruct (IH (attempts + 1) s)
        as (st' & delta & Hrun & Hheap & Htrace & Hreqs & Hsleeps)
    end.
    + lia.
    + intros i Hi. simpl. rewrite <- nth_poll_S. apply Hnever. lia.
    + simpl in *. rewrite Hrun. eexists _, _. split; [do 3 f_equal; lia|].
      split; [done|]. split.
      { rewrite Htrace, <- !app_assoc. reflexivity. }
      rewrite !http_requests_app, !sleeps_app, Hsleeps. simpl.
      rewrite Hreqs. done.
Qed.

(** What the loop can raise: the errors of [time.sleep] on an interval it
    does not take, and the error of [response.json()]. *)
Lemma while_attempts_error (self : client) (task_id : json)
    (max_attempts poll_interval : Z) (n : nat) :
  forall (attempts : Z) (st : state) (e : exn),
    n = Z.to_nat (max_attempts - attempts) ->
    (while_attempts self task_id max_attempts poll_interval attempts st).1 = inl e ->
    (e = ValueError_sleep_length /\ poll_interval < 0)
    \/ (e = OverflowError /\ sleep_limit < poll_interval)
    \/ e = JSONDecodeError.
Proof.
  induction n as [|n IH]; intros attempts st e Hn;
    rewrite while_attempts_eq, ?poll_request_run;
    (destruct (decide (attempts < max_attempts)); [|done]); [lia|].
  unfold response_json.
  destruct (body _); simpl; [|intros [= <-]; by right; right].
  destruct (status_code _ =? 200); [done|].
  unfold sleep. destruct (poll_interval <? 0) eqn:Hneg; simpl.
  { intros [= <-]. left. split; [done|lia]. }
  destruct (sleep_limit <? poll_interval) eqn:Hbig; simpl.
  { intros [= <-]. right. left. split; [done|lia]. }
  apply IH. lia.
Qed.

(** X24.  The poller when the budget runs out: every poll within the
    budget is answered with a status other than 200 and a body that parses,
    and the poll interval is one that [time.sleep] takes.  It has then made
    as many requests as the budget allows and slept after each, and
    [result] is still [None] when [result["result"]] is evaluated, which
    raises a [TypeError]. *)
Lemma wait_for_task_exhausted (self : client) (task_id : json)
    (max_attempts_arg poll_interval_arg : option Z) (st : state) :
  let max_attempts :=
    match max_attempts_arg with None => max_attempts self | Some n => n end in
  let poll_interval :=
    match poll_interval_arg with None => poll_interval self | Some n => n end in
  0 <= poll_interval <= sleep_limit ->
  (forall i, (i < Z.to_nat max_attempts)%nat ->
     status_code (nth_poll self task_id i (world st)).1 <> 200
     /\ is_Some (body (nth_poll self task_id i (world st)).1)) ->
  exists st' delta,
    _wait_for_task self task_id max_attempts_arg poll_interval_arg st
    = (inl (TypeError "<class 'NoneType'>"), st')
    /\ trace st' = (trace st ++ delta)%list
    /\ length (http_requests delta) = Z.to_nat max_attempts
    /\ sleeps delta = replicate (Z.to_nat max_attempts) poll_interval.
Proof.
  intros max_att interval Hinterval Hnever.
  destruct (while_attempts_exhausted self task_id max_att interval
              (Z.to_nat max_att) Hinterval 0 st)
    as (st' & delta & Hrun & _ & Htrace & Hreqs & Hsleeps);
    [f_equal; lia | done |].
  exists st', delta. unfold _wait_for_task, bind.
  fold max_att interval. rewrite Hrun. by repeat split.
Qed.

(** C3, as the code has it.  When the first answer with status 200 comes
    at poll [k] (counted from 0) within the attempt budget, every answer
    before it has a body that parses as JSON, and the poll interval is one
    that [time.sleep] takes, the poller stops there: it has made exactly
    [k + 1] requests and slept [k] times, the server is in the state right
    after that answer, and the value returned is the "result" field of
    that answer. *)
Theorem wait_for_task_first_success (self : client) (task_id : json)
    (max_attempts_arg poll_interval_arg : option Z) (st : state)
    (k : nat) (resp v : json) :
  let max_attempts :=
    match max_attempts_arg with None => max_attempts self | Some n => n end in
  let poll_interval :=
    match poll_interval_arg with None => poll_interval self | Some n => n end in
  Z.of_nat k < max_attempts ->
  0 <= poll_interval <= sleep_limit ->
  (forall i, (i < k)%nat ->
     status_code (nth_poll self task_id i (world st)).1 <> 200
     /\ is_Some (body (nth_poll self task_id i (world st)).1)) ->
  status_code (nth_poll self task_id k (world st)).1 = 200 ->
  response_json (nth_poll self task_id k (world st)).1 = inr resp ->
  subscript resp "result" = inr v ->
  exists st' delta,
    _wait_for_task self task_id max_attempts_arg poll_interval_arg st = (inr v, st')
    /\ world st' = (nth_poll self task_id k (world st)).2
    /\ heap st' = heap st
    /\ trace st' = (trace st ++ delta)%list
    /\ length (http_requests delta) = S k
    /\ sleeps delta = replicate k poll_interval.
Proof.
  intros max_att interval Hbudget Hinterval Hbefore Hk Hresp Hresult.
  destruct (while_attempts_success self task_id max_att interval k resp
              Hinterval 0 st)
    as (st' & delta & Hrun & Hworld & Hheap & Htrace & Hreqs & Hsleeps);
    [lia | done | done | done |].
  exists st', delta. unfold _wait_for_task, bind, lift.
  fold max_att interval. rewrite Hrun. simpl. rewrite Hresult. by repeat split.
Qed.

(** ** The facade *)

Lemma wait_for_task_error (self : client) (task_id : json)
    (max_attempts_arg poll_interval_arg : option Z) (st : state) (e : exn) :
  (_wait_for_task self task_id max_attempts_arg poll_interval_arg st).1 = inl e ->
  match e with
  | ValueError_sleep_length | OverflowError | JSONDecodeError
  | KeyError _ | TypeError _ => True
  | _ => False
  end.
Proof.
  unfold _wait_for_task, bind.
  set (ma := match max_attempts_arg with None => max_attempts self | Some n => n end).
  set (pi := match poll_interval_arg with None => poll_interval self | Some n => n end).
  pose proof (while_attempts_error self task_id ma pi (Z.to_nat (ma - 0)) 0 st)
    as Herr.
  destruct (while_attempts self task_id ma pi 0 st) as [[e'|[attempts result]] st'].
  - simpl in *. intros [= ->].
    by destruct (Herr _ eq_refl eq_refl) as [[-> _]|[[-> _]| ->]].
  - simpl. destruct result as [resp|]; [|by intros [= <-]].
    unfold lift, subscript. simpl.
    destruct resp; try by intros [= <-].
    destruct (Dict.get "result" kvs); [done|]. by intros [= <-].
Qed.

Lemma predict_supported_error (self : client)
    (model_identifier prediction_method : string) (input_data : json)
    (st : state) (e : exn) :
  prediction_method ∈ supported_prediction_methods ->
  (predict self model_identifier prediction_method input_data st).1 = inl e ->
  match e with
  | ValueError_sleep_length | OverflowError | JSONDecodeError
  | KeyError _ | TypeError _ => True
  | _ => False
  end.
Proof.
  intros Hm. unfold predict. rewrite bool_decide_eq_true_2 by done. simpl.
  unfold bind at 1. unfold credentials.
  destruct (client_credentials (world st)) as [token w1].
  unfold bind at 1. unfold requests. simpl.
  destruct (requests_send _ w1) as [response w2].
  unfold bind at 1. unfold lift at 1. unfold response_json.
  destruct (body response) as [result|]; [|by intros [= <-]].
  destruct (status_code response =? 200); [|done].
  unfold bind at 1. unfold lift.
  destruct (subscript result "task_id") as [e'|task_id] eqn:Hid.
  - unfold subscript in Hid. simpl. intros [= ->].
    destruct result; try by injection Hid as <-.
    destruct (Dict.get "task_id" kvs); [done|]. by injection Hid as <-.
  - unfold bind.
    match goal with
    | |- context [_wait_for_task ?s ?t ?ma ?pi ?st0] =>
        pose proof (wait_for_task_error s t ma pi st0) as Hw;
        destruct (_wait_for_task s t ma pi st0) as [[e'|r] st']
    end; [|done].
    simpl in *. intros [= ->]. by apply Hw.
Qed.

(** C6.  A prediction method outside the five supported ones makes
    [predict] raise its [ValueError] with the state untouched, so before any
    credential or HTTP call; a supported method never raises it. *)
Theorem predict_validates_method (self : client)
    (model_identifier prediction_method : string) (input_data : json)
    (st : state) :
  (prediction_method ∉ ["embedding"; "sequence-classification";
                         "token-classification"; "generation";
                         "question-answering"] ->
   predict self model_identifier prediction_method input_data st
   = (inl (ValueError_unknown_prediction_method prediction_method), st))
  /\ (prediction_method ∈ ["embedding"; "sequence-classification";
                           "token-classification"; "generation";
                           "question-answering"] ->
      forall m,
        (predict self model_identifier prediction_method input_data st).1
        <> inl (ValueError_unknown_prediction_method m)).
Proof.
  split; intros Hm.
  - unfold predict, supported_prediction_methods. by rewrite bool_decide_eq_false_2.
  - intros m Hrun.
    by apply (predict_supported_error _ _ _ _ _ _ Hm) in Hrun.
Qed.

Lemma dict_get_fmap {A B : Type} (f : A -> B) (k : string) (d : list (string * A)) :
  Dict.get k (prod_map id f <$> d) = f <$> Dict.get k d.
Proof.
  induction d as [|[k' v] r IH]; simpl; [done|].
  by destruct (String.eqb k' k).
Qed.

(** C4, as the code has it.  [predict] hands back the polled result as it
    came; it is [__call__] that passes it through the codec.  When [predict]
    returns a JSON object with a flag and outputs that decode, [__call__]
    returns a reference to a new object holding that result with
    "model_outputs" replaced by the decoded outputs, and makes no further
    credential or HTTP call after [predict]. *)
Theorem call_decodes_prediction (self : client) (model_name pipeline : string)
    (model_request : json) (st st1 : state) d flag outs new :
  predict self model_name pipeline model_request st = (inr (Json (JDict d)), st1) ->
  Dict.get "model_output_is_encoded" d = Some flag ->
  Dict.get "model_outputs" d = Some outs ->
  decode_outputs (truthy flag) (FJson outs) = inr new ->
  exists l st2,
    __call__ self model_name pipeline model_request st = (inr l, st2)
    /\ heap st1 !! l = None
    /\ heap st2 !! l
       = Some (ODict (Dict.set "model_outputs" (FDecoded new)
                        (prod_map id FJson <$> d)))
    /\ (forall l0, l0 <> l -> heap st2 !! l0 = heap st1 !! l0)
    /\ world st2 = world st1
    /\ trace st2 = trace st1.
Proof.
  intros Hpredict Hflag Houts Hnew.
  set (l := fresh (dom (heap st1))).
  assert (heap st1 !! l = None) as Hfresh.
  { apply not_elem_of_dom. apply is_fresh. }
  unfold __call__, bind. rewrite Hpredict. unfold alloc. simpl. fold l.
  rewrite (decode_unfold _ l (ODict (prod_map id FJson <$> d))
             (prod_map id FJson <$> d) (FJson flag) (FJson outs)).
  - cbn [field_truthy]. rewrite Hnew. eexists _, _. split; [reflexivity|]. simpl.
    split; [done|]. split; [apply lookup_insert_eq|]. split; [|done].
    intros l0 Hl0. rewrite lookup_insert_ne by done. by apply lookup_insert_ne.
  - apply lookup_insert_eq.
  - reflexivity.
  - by rewrite dict_get_fmap, Hflag.
  - by rewrite dict_get_fmap, Houts.
Qed.

(** ** The deployment guard *)

Lemma model_type_of_keys (default_skill_args : list (string * json)) :
  model_type_of default_skill_args
  = if bool_decide ("adapter" ∈ Dict.keys default_skill_args)
    then "adapter" else "transformer".
Proof.
  unfold model_type_of.
  destruct (Dict.mem "adapter" default_skill_args) eqn:Hmem.
  - apply dict_mem_keys in Hmem. by rewrite bool_decide_eq_true_2.
  - rewrite bool_decide_eq_false_2; [done|].
    intros Hin%dict_mem_keys. congruence.
Qed.

Lemma model_type_of_nonempty (default_skill_args : list (string * json)) :
  model_type_of default_skill_args <> "".
Proof. unfold model_type_of. by destruct (Dict.mem _ _). Qed.

Lemma py_eq_str (v : json) (s : string) : py_eq v (JStr s) = true <-> v = JStr s.
Proof.
  destruct v; simpl; try (split; [done | discriminate]).
  rewrite String.eqb_eq. split; congruence.
Qed.

Lemma py_eq_str_false (v : json) (s : string) :
  py_eq v (JStr s) = false <-> v <> JStr s.
Proof.
  rewrite <- py_eq_str. by destruct (py_eq v (JStr s)).
Qed.

Lemma any_model_matches_true (model_name model_type : string) (records : list json) :
  Forall is_model_record records ->
  Exists (record_matches model_name model_type) records ->
  any (model_matches (JStr model_name) model_type) records = inr true.
Proof.
  induction 1 as [|model r (kvs & n & t & -> & Hn & Ht) _ IH]; intros Hex.
  - by apply Exists_nil in Hex.
  - simpl. unfold model_matches, subscript. rewrite Hn. simpl.
    destruct (py_eq n (JStr model_name)) eqn:En.
    + rewrite Ht. simpl. destruct (py_eq t (JStr model_type)) eqn:Et; [done|].
      apply IH. apply Exists_cons in Hex as [(kvs' & [= <-] & Hn' & Ht')|]; [|done].
      apply py_eq_str_false in Et. congruence.
    + apply IH. apply Exists_cons in Hex as [(kvs' & [= <-] & Hn' & Ht')|]; [|done].
      apply py_eq_str_false in En. congruence.
Qed.

Lemma any_model_matches_false (model_name model_type : string) (records : list json) :
  Forall is_model_record records ->
  ~ Exists (record_matches model_name model_type) records ->
  any (model_matches (JStr model_name) model_type) records = inr false.
Proof.
  induction 1 as [|model r (kvs & n & t & -> & Hn & Ht) _ IH]; intros Hex; [done|].
  simpl. unfold model_matches, subscript. rewrite Hn. simpl.
  assert (~ Exists (record_matches model_name model_type) r) as Hr.
  { intros Hr. apply Hex. by right. }
  destruct (py_eq n (JStr model_name)) eqn:En; [|by apply IH].
  rewrite Ht. simpl. destruct (py_eq t (JStr model_type)) eqn:Et; [|by apply IH].
  apply py_eq_str in En, Et. subst. destruct Hex. left. by exists kvs.
Qed.

Lemma deploy_calls_app (self : client) (a b : list event) :
  deploy_calls self (a ++ b) = (deploy_calls self a ++ deploy_calls self b)%list.
Proof. unfold deploy_calls. by rewrite http_requests_app, omap_app. Qed.

Lemma while_attempts_deploy_calls (self : client) (task_id : json)
    (max_attempts poll_interval : Z) (n : nat) :
  forall (attempts : Z) (st : state),
    n = Z.to_nat (max_attempts - attempts) ->
    deploy_calls self
      (trace (while_attempts self task_id max_attempts poll_interval attempts st).2)
    = deploy_calls self (trace st).
Proof.
  induction n as [|n IH]; intros attempts st Hn;
    rewrite while_attempts_eq, ?poll_request_run;
    (destruct (decide (attempts < max_attempts)); [|done]); [lia|].
  assert (forall s : string,
            deploy_calls self (trace st ++ [Credentials;
                                 Http (task_result_request self task_id s)])
            = deploy_calls self (trace st)) as Hpoll.
  { intros s. rewrite deploy_calls_app. unfold deploy_calls. simpl.
    by rewrite app_nil_r. }
  destruct (response_json _); simpl; [apply Hpoll|].
  destruct (status_code _ =? 200); [apply Hpoll|].
  unfold sleep. destruct (poll_interval <? 0); simpl; [apply Hpoll|].
  destruct (sleep_limit <? poll_interval); simpl; [apply Hpoll|].
  rewrite IH by lia. simpl. rewrite deploy_calls_app, Hpoll.
  unfold deploy_calls. simpl. by rewrite app_nil_r.
Qed.

Lemma wait_for_task_deploy_calls (self : client) (task_id : json)
    (max_attempts_arg poll_interval_arg : option Z) (st : state) :
  deploy_calls self
    (trace (_wait_for_task self task_id max_attempts_arg poll_interval_arg st).2)
  = deploy_calls self (trace st).
Proof.
  unfold _wait_for_task, bind.
  match goal with
  | |- context [while_attempts ?s ?t ?ma ?pi 0 st] =>
      pose proof (while_attempts_deploy_calls s t ma pi (Z.to_nat (ma - 0)) 0 st
                    eq_refl) as Hloop;
      destruct (while_attempts s t ma pi 0 st) as [[e|[attempts result]] st']
  end; [done|].
  simpl in *. by destruct result.
Qed.

Lemma deploy_deploy_calls (self : client) (model_attributes : json) (st : state) :
  deploy_calls self (trace (deploy self model_attributes st).2)
  = (deploy_calls self (trace st) ++ [Some model_attributes])%list.
Proof.
  unfold deploy. unfold bind at 1. unfold credentials.
  destruct (client_credentials (world st)) as [token w1].
  unfold bind at 1. unfold requests. simpl.
  destruct (requests_send _ w1) as [response w2].
  assert (forall s : string,
            deploy_calls self
              ((trace st ++ [Credentials]) ++
               [Http {| method := POST; url := api_url self +:+ "/models/deploy";
                        json_body := Some model_attributes;
                        headers := [("Authorization", s)];
                        verify := verify_ssl self |}])
            = (deploy_calls self (trace st) ++ [Some model_attributes])%list) as Hpost.
  { intros s. rewrite !deploy_calls_app. unfold deploy_calls at 2 3. simpl.
    by rewrite String.eqb_refl, app_nil_r. }
  unfold bind at 1. unfold lift at 1.
  destruct (response_json response) as [e|result]; [apply Hpost|].
  destruct (status_code response =? 200); [|apply Hpost].
  unfold bind at 1. unfold lift.
  destruct (subscript result "task_id") as [e|task_id]; [apply Hpost|].
  unfold bind.
  match goal with
  | |- context [_wait_for_task ?s ?t ?ma ?pi ?st0] =>
      pose proof (wait_for_task_deploy_calls s t ma pi st0) as Hw;
      destruct (_wait_for_task s t ma pi st0) as [[e|r] st']
  end; simpl in *; by rewrite Hw, Hpost.
Qed.

Lemma deployed_models_deploy_calls (self : client) (st : state) :
  deploy_calls self (trace (deployed_models self st).2) = deploy_calls self (trace st).
Proof.
  unfold deployed_models, bind, credentials, requests, lift.
  destruct (client_credentials (world st)) as [token w1]. simpl.
  destruct (requests_send _ w1) as [response w2]. simpl.
  rewrite !deploy_calls_app. unfold deploy_calls at 2 3. simpl.
  by rewrite !app_nil_r.
Qed.

Lemma get_models_in_deployment_deploy_calls (self : client) (st : state) :
  deploy_calls self (trace (get_models_in_deployment self st).2)
  = deploy_calls self (trace st).
Proof.
  unfold get_models_in_deployment, bind, credentials, requests, raise_for_status,
    raise, ret, lift.
  destruct (client_credentials (world st)) as [token w1]. simpl.
  destruct (requests_send _ w1) as [response w2]. simpl.
  assert (deploy_calls self
            ((trace st ++ [Credentials]) ++
             [Http {| method := GET; url := api_url self +:+ "/models/task";
                      json_body := None;
                      headers := [("Authorization", "Bearer " +:+ token)];
                      verify := true |}])
          = deploy_calls self (trace st)) as Hget.
  { rewrite !deploy_calls_app. unfold deploy_calls at 2 3. simpl.
    by rewrite !app_nil_r. }
  destruct ((400 <=? status_code response) && (status_code response <? 600));
    simpl; [done|].
  by destruct (response_json response).
Qed.

(** The guard, case by case, once [deployed_models] has answered a list
    of model records. *)
Lemma deploy_model_if_not_exists_cases (self : client)
    (default_skill_args : list (string * json)) (name : string)
    (st st1 : state) (records : list json) :
  Dict.get "base_model" default_skill_args = Some (JStr name) ->
  name <> "" ->
  deployed_models self st = (inr (JList records), st1) ->
  Forall is_model_record records ->
  let model_type := model_type_of default_skill_args in
  let attributes :=
    JDict [("identifier", JStr name); ("model_name", JStr name);
           ("model_type", JStr model_type)] in
  let run := deploy_model_if_not_exists self default_skill_args st in
  (Exists (record_matches name model_type) records ->
   run = (inr tt, st1)
   /\ deploy_calls self (trace run.2) = deploy_calls self (trace st))
  /\ (forall currently st2,
        get_models_in_deployment self st1 = (inr currently, st2) ->
        ~ Exists (record_matches name model_type) records ->
        (kv_get (JStr name) currently = Some (JStr model_type) ->
         run = (inr tt, st2)
         /\ deploy_calls self (trace run.2) = deploy_calls self (trace st))
        /\ (kv_get (JStr name) currently <> Some (JStr model_type) ->
            run = (let (r, st3) := deploy self attributes st2 in
                   (match r with inl e => inl e | inr _ => inr tt end, st3))
            /\ deploy_calls self (trace run.2)
               = (deploy_calls self (trace st) ++ [Some attributes])%list)).
Proof.
  intros Hbase Hname Hdm Hrecords model_type attributes run.
  pose proof (deployed_models_deploy_calls self st) as Hcalls1.
  rewrite Hdm in Hcalls1. simpl in Hcalls1.
  assert (run = (already <- lift (any (model_matches (JStr name) model_type) records) ;;
                   if already : bool then ret tt
                   else
                     currently_deploying_models <- get_models_in_deployment self ;;
                     in_flight <- lift (get_or_empty (JStr name)
                                          currently_deploying_models) ;;
                     if py_eq in_flight (JStr model_type) then ret tt
                     else _ <- deploy self attributes ;; ret tt) st1) as Hrun.
  { unfold run, deploy_model_if_not_exists. rewrite Hbase. simpl.
    destruct (String.eqb name "") eqn:E; [by apply String.eqb_eq in E|]. simpl.
    unfold bind at 1. by rewrite Hdm. }
  split.
  - intros Hex. rewrite Hrun. unfold bind, lift.
    rewrite (any_model_matches_true _ _ _ Hrecords Hex). by simpl.
  - intros currently st2 Hgmid Hnone.
    pose proof (get_models_in_deployment_deploy_calls self st1) as Hcalls2.
    rewrite Hgmid in Hcalls2. simpl in Hcalls2.
    assert (run = (if py_eq (match kv_get (JStr name) currently with
                             | Some v => v
                             | None => JStr ""
                             end) (JStr model_type)
                   then ret tt
                   else _ <- deploy self attributes ;; ret tt) st2) as Hrun2.
    { rewrite Hrun. unfold bind at 1. unfold lift at 1.
      rewrite (any_model_matches_false _ _ _ Hrecords Hnone).
      unfold bind at 1. rewrite Hgmid. unfold bind at 1. by unfold lift at 1. }
    split.
    + intros Hget. rewrite Hrun2, Hget.
      rewrite (proj2 (py_eq_str _ _) eq_refl). unfold ret. simpl.
      split; [done|]. congruence.
    + intros Hget. rewrite Hrun2.
      assert (py_eq (match kv_get (JStr name) currently with
                     | Some v => v
                     | None => JStr ""
                     end) (JStr model_type) = false) as ->.
      { apply py_eq_str_false. destruct (kv_get (JStr name) currently) as [v|].
        - congruence.
        - intros [= E]. by apply (model_type_of_nonempty default_skill_args). }
      unfold bind, ret.
      pose proof (deploy_deploy_calls self attributes st2) as Hcalls3.
      destruct (deploy self attributes st2) as [[e|r] st3]; simpl in *;
        (split; [done|]); by rewrite Hcalls3, Hcalls2, Hcalls1.
Qed.

(** C1.  For arguments whose "base_model" is a non-empty string, with
    [deployed_models] answering a list of model records:
    - when some record has that model name and the derived model type, the
      guard returns without calling [deploy];
    - otherwise, with [get_models_in_deployment] returning a dictionary,
      when the dictionary maps the model name to the derived type the guard
      returns without calling [deploy], and when it does not the guard runs
      [deploy] once, on the attributes identifier, model_name and model_type,
      so that exactly one request reaches the deploy endpoint. *)
Theorem deploy_model_if_not_exists_triggers_iff (self : client)
    (default_skill_args : list (string * json)) (name : string)
    (st st1 : state) (records : list json) :
  Dict.get "base_model" default_skill_args = Some (JStr name) ->
  name <> "" ->
  deployed_models self st = (inr (JList records), st1) ->
  Forall is_model_record records ->
  let model_type := model_type_of default_skill_args in
  let attributes :=
    JDict [("identifier", JStr name); ("model_name", JStr name);
           ("model_type", JStr model_type)] in
  let run := deploy_model_if_not_exists self default_skill_args st in
  (Exists (record_matches name model_type) records ->
   run = (inr tt, st1)
   /\ deploy_calls self (trace run.2) = deploy_calls self (trace st))
  /\ (forall currently st2,
        get_models_in_deployment self st1 = (inr currently, st2) ->
        ~ Exists (record_matches name model_type) records ->
        (kv_get (JStr name) currently = Some (JStr model_type) ->
         run = (inr tt, st2)
         /\ deploy_calls self (trace run.2) = deploy_calls self (trace st))
        /\ (kv_get (JStr name) currently <> Some (JStr model_type) ->
            run = (let (r, st3) := deploy self attributes st2 in
                   (match r with inl e => inl e | inr _ => inr tt end, st3))
            /\ deploy_calls self (trace run.2)
               = (deploy_calls self (trace st) ++ [Some attributes])%list)).
Proof.
  intros Hbase Hname Hdm Hrecords.
  exact (deploy_model_if_not_exists_cases self default_skill_args name st st1
           records Hbase Hname Hdm Hrecords).
Qed.

(** C7.  The model type the guard works with is "adapter" when the
    arguments contain an "adapter" key, whatever its value, and
    "transformer" otherwise: that is the type it looks for among the
    deployed models, the type it looks for among the running deployments,
    and the type it posts to the deploy endpoint. *)
Theorem model_type_derivation (self : client)
    (default_skill_args : list (string * json)) (name : string)
    (st st1 : state) (records : list json) :
  Dict.get "base_model" default_skill_args = Some (JStr name) ->
  name <> "" ->
  deployed_models self st = (inr (JList records), st1) ->
  Forall is_model_record records ->
  let model_type :=
    if bool_decide ("adapter" ∈ Dict.keys default_skill_args)
    then "adapter" else "transformer" in
  let run := deploy_model_if_not_exists self default_skill_args st in
  (Exists (record_matches name model_type) records -> run = (inr tt, st1))
  /\ (forall currently st2,
        get_models_in_deployment self st1 = (inr currently, st2) ->
        ~ Exists (record_matches name model_type) records ->
        (kv_get (JStr name) currently = Some (JStr model_type) ->
         run = (inr tt, st2))
        /\ (kv_get (JStr name) currently <> Some (JStr model_type) ->
            deploy_calls self (trace run.2)
            = (deploy_calls self (trace st)
               ++ [Some (JDict [("identifier", JStr name);
                                ("model_name", JStr name);
                                ("model_type", JStr model_type)])])%list)).
Proof.
  intros Hbase Hname Hdm Hrecords model_type run. subst model_type run.
  rewrite <- model_type_of_keys.
  destruct (deploy_model_if_not_exists_cases self default_skill_args name st st1
              records Hbase Hname Hdm Hrecords) as [Hdeployed Hrest].
  split.
  - intros Hex. by destruct (Hdeployed Hex).
  - intros currently st2 Hgmid Hnone.
    destruct (Hrest currently st2 Hgmid Hnone) as [Hin Hout]. split.
    + intros Hget. by destruct (Hin Hget).
    + intros Hget. by destruct (Hout Hget).
Qed.

(** ** More on the task poller *)

Lemma credential_calls_app (a b : list event) :
  credential_calls (a ++ b) = (credential_calls a + credential_calls b)%nat.
Proof. unfold credential_calls. by rewrite omap_app, length_app. Qed.

Lemma while_attempts_invariant (self : client) (task_id : json)
    (max_attempts poll_interval : Z) (n : nat) :
  forall (attempts : Z) (st : state),
    n = Z.to_nat (max_attempts - attempts) ->
    exists delta,
      trace (while_attempts self task_id max_attempts poll_interval attempts st).2
      = (trace st ++ delta)%list
      /\ heap (while_attempts self task_id max_attempts poll_interval attempts st).2
         = heap st
      /\ Forall (poll_event self task_id poll_interval) delta
      /\ (length (http_requests delta) <= n)%nat
      /\ (length (sleeps delta) <= length (http_requests delta))%nat
      /\ credential_calls delta = length (http_requests delta).
Proof.
  induction n as [|n IH]; intros attempts st Hn; rewrite while_attempts_eq;
    destruct (decide (attempts < max_attempts)) as [Hlt|Hge]; try lia.
  - exists []. rewrite app_nil_r. by repeat split.
  - rewrite poll_request_run.
    assert (Forall (poll_event self task_id poll_interval)
              [Credentials;
               Http (task_result_request self task_id
                       (client_credentials (world st)).1)]) as Hpoll.
    { repeat constructor. by eexists. }
    destruct (response_json _); simpl.
    { eexists. split; [reflexivity|]. repeat split; try done;
        unfold http_requests, sleeps, credential_calls; simpl; lia. }
    destruct (status_code _ =? 200).
    { eexists. split; [reflexivity|]. repeat split; try done;
        unfold http_requests, sleeps, credential_calls; simpl; lia. }
    unfold sleep. destruct (poll_interval <? 0); simpl.
    { eexists. split; [reflexivity|]. repeat split; try done;
        unfold http_requests, sleeps, credential_calls; simpl; lia. }
    destruct (sleep_limit <? poll_interval); simpl.
    { eexists. split; [reflexivity|]. repeat split; try done;
        unfold http_requests, sleeps, credential_calls; simpl; lia. }
    match goal with
    | |- context [while_attempts _ _ _ _ _ ?s] =>
        destruct (IH (attempts + 1) s ltac:(lia))
          as (delta & Htrace & Hheap & Hevents & Hreqs & Hsleeps & Hcreds)
    end.
    exists ([Credentials;
             Http (task_result_request self task_id
                     (client_credentials (world st)).1);
             Sleep poll_interval] ++ delta)%list.
    rewrite Htrace, Hheap. simpl. rewrite <- !app_assoc. simpl.
    split; [done|]. split; [done|]. split.
    { repeat constructor; [by eexists | done]. }
    unfold http_requests, sleeps, credential_calls in *. simpl.
    clear IH. repeat split; try lia. exact (f_equal S Hcreds).
Qed.

Lemma wait_for_task_state (self : client) (task_id : json)
    (max_attempts_arg poll_interval_arg : option Z) (st : state) :
  (_wait_for_task self task_id max_attempts_arg poll_interval_arg st).2
  = (while_attempts self task_id
       match max_attempts_arg with None => max_attempts self | Some n => n end
       match poll_interval_arg with None => poll_interval self | Some n => n end
       0 st).2.
Proof.
  unfold _wait_for_task, bind.
  destruct (while_attempts _ _ _ _ 0 st) as [[e|[attempts result]] st']; [done|].
  simpl. by destruct result.
Qed.

(** X1.  Whatever the server answers, the poller makes no more requests
    than its attempt budget, sleeps at most once per request, fetches one
    credential per request and leaves the store alone. *)
Theorem wait_for_task_bounded (self : client) (task_id : json)
    (max_attempts_arg poll_interval_arg : option Z) (st : state) :
  exists delta,
    trace (_wait_for_task self task_id max_attempts_arg poll_interval_arg st).2
    = (trace st ++ delta)%list
    /\ heap (_wait_for_task self task_id max_attempts_arg poll_interval_arg st).2
       = heap st
    /\ (length (http_requests delta)
        <= Z.to_nat match max_attempts_arg with
                    | None => max_attempts self
                    | Some n => n
                    end)%nat
    /\ (length (sleeps delta) <= length (http_requests delta))%nat
    /\ credential_calls delta = length (http_requests delta).
Proof.
  rewrite wait_for_task_state.
  destruct (while_attempts_invariant self task_id
              match max_attempts_arg with None => max_attempts self | Some n => n end
              match poll_interval_arg with None => poll_interval self | Some n => n end
              _ 0 st eq_refl)
    as (delta & Htrace & Hheap & _ & Hreqs & Hsleeps & Hcreds).
  exists delta. rewrite Z.sub_0_r in Hreqs. by repeat split.
Qed.

(** X2.  The poller talks to one endpoint only: every request it sends is
    the GET of the task-result URL of its task, with the bearer token as the
    only header, and every sleep has the length of its poll interval. *)
Theorem wait_for_task_only_polls (self : client) (task_id : json)
    (max_attempts_arg poll_interval_arg : option Z) (st : state) :
  exists delta,
    trace (_wait_for_task self task_id max_attempts_arg poll_interval_arg st).2
    = (trace st ++ delta)%list
    /\ Forall (fun e =>
                 match e with
                 | Credentials => True
                 | Http r =>
                     exists token,
                       r = {| method := GET;
                              url := api_url self +:+ "/main/task_result/"
                                     +:+ fstr task_id;
                              json_body := None;
                              headers := [("Authorization", "Bearer " +:+ token)];
                              verify := verify_ssl self |}
                 | Sleep s =>
                     s = match poll_interval_arg with
                         | None => poll_interval self
                         | Some n => n
                         end
                 end) delta.
Proof.
  rewrite wait_for_task_state.
  destruct (while_attempts_invariant self task_id
              match max_attempts_arg with None => max_attempts self | Some n => n end
              match poll_interval_arg with None => poll_interval self | Some n => n end
              _ 0 st eq_refl)
    as (delta & Htrace & _ & Hevents & _).
  exists delta. split; [done|]. exact Hevents.
Qed.

(** X3.  With an attempt budget of zero or less the poller sends nothing:
    it raises the [TypeError] of [None["result"]] at once, and the state is
    as it was. *)
Theorem wait_for_task_no_budget (self : client) (task_id : json)
    (max_attempts_arg poll_interval_arg : option Z) (st : state) :
  match max_attempts_arg with None => max_attempts self | Some n => n end <= 0 ->
  _wait_for_task self task_id max_attempts_arg poll_interval_arg st
  = (inl (TypeError "<class 'NoneType'>"), st).
Proof.
  intros Hbudget. unfold _wait_for_task, bind. rewrite while_attempts_eq.
  by destruct (decide (0 < _)); [lia|].
Qed.

(** X4.  With a negative poll interval and a first answer other than 200
    whose body parses as JSON, the poller stops after that one request:
    [time.sleep] raises its [ValueError] and no second attempt is made. *)
Theorem wait_for_task_negative_interval (self : client) (task_id : json)
    (max_attempts_arg poll_interval_arg : option Z) (st : state) :
  0 < match max_attempts_arg with None => max_attempts self | Some n => n end ->
  match poll_interval_arg with None => poll_interval self | Some n => n end < 0 ->
  status_code (nth_poll self task_id 0 (world st)).1 <> 200 ->
  is_Some (body (nth_poll self task_id 0 (world st)).1) ->
  _wait_for_task self task_id max_attempts_arg poll_interval_arg st
  = (inl ValueError_sleep_length,
     {| world := (nth_poll self task_id 0 (world st)).2;
        trace := trace st ++
                 [Credentials;
                  Http (task_result_request self task_id
                          (client_credentials (world st)).1)];
        heap := heap st |}).
Proof.
  intros Hbudget Hneg Hstatus [v Hv]. unfold _wait_for_task, bind.
  rewrite while_attempts_eq, poll_request_run.
  destruct (decide (0 < _)); [|lia].
  apply Z.eqb_neq in Hstatus. unfold response_json. rewrite Hv, Hstatus.
  unfold sleep. by destruct (_ <? 0) eqn:E; [|lia].
Qed.

(** X5.  When the first answer with status 200 is a JSON object without a
    "result" key, the answers before it have bodies that parse as JSON and
    the poll interval is one that [time.sleep] takes, the poller stops
    there, after [k + 1] requests, and raises [KeyError('result')]. *)
Theorem wait_for_task_missing_result (self : client) (task_id : json)
    (max_attempts_arg poll_interval_arg : option Z) (st : state)
    (k : nat) (kvs : list (string * json)) :
  Z.of_nat k < match max_attempts_arg with None => max_attempts self | Some n => n end ->
  0 <= match poll_interval_arg with None => poll_interval self | Some n => n end
    <= sleep_limit ->
  (forall i, (i < k)%nat ->
     status_code (nth_poll self task_id i (world st)).1 <> 200
     /\ is_Some (body (nth_poll self task_id i (world st)).1)) ->
  status_code (nth_poll self task_id k (world st)).1 = 200 ->
  response_json (nth_poll self task_id k (world st)).1 = inr (JDict kvs) ->
  Dict.get "result" kvs = None ->
  exists st' delta,
    _wait_for_task self task_id max_attempts_arg poll_interval_arg st
    = (inl (KeyError (JStr "result")), st')
    /\ trace st' = (trace st ++ delta)%list
    /\ length (http_requests delta) = S k.
Proof.
  intros Hbudget Hinterval Hbefore Hk Hbody Hmissing.
  destruct (while_attempts_success self task_id
              match max_attempts_arg with None => max_attempts self | Some n => n end
              _ k (JDict kvs) Hinterval 0 st)
    as (st' & delta & Hrun & _ & _ & Htrace & Hreqs & _);
    [lia | done | done | done |].
  exists st', delta. unfold _wait_for_task, bind, lift.
  rewrite Hrun. simpl. rewrite Hmissing. by repeat split.
Qed.

(** ** More on the facade *)

Lemma async_interval_eq (self : client) (op : async_op) :
  match async_interval_arg op with None => poll_interval self | Some n => n end
  = async_interval self op.
Proof. by destruct op. Qed.

(** Each of the five operations is one exchange whose answer is parsed as
    JSON, followed on status 200 by the poller on the task id of the
    answer. *)
Lemma run_async_eq (self : client) (op : async_op) (st : state) :
  async_supported op ->
  run_async self op st
  = match response_json (exchange (async_request self op) st).1 with
    | inl e => (inl e, (exchange (async_request self op) st).2)
    | inr result =>
        if status_code (exchange (async_request self op) st).1 =? 200
        then
          match subscript result "task_id" with
          | inl e => (inl e, (exchange (async_request self op) st).2)
          | inr task_id =>
              match _wait_for_task self task_id None (async_interval_arg op)
                      (exchange (async_request self op) st).2 with
              | (inl e, st') => (inl e, st')
              | (inr r, st') => (inr (Json r), st')
              end
          end
        else (inr (Resp (exchange (async_request self op) st).1),
              (exchange (async_request self op) st).2)
    end.
Proof.
  intros Hop.
  destruct op; simpl in *;
    [unfold predict; rewrite bool_decide_eq_true_2 by done; simpl
    | unfold deploy | unfold remove | unfold add_worker | unfold remove_worker];
    unfold bind at 1; unfold credentials, exchange;
    destruct (client_credentials (world st)) as [token w1];
    unfold bind at 1; unfold requests; simpl;
    destruct (requests_send _ w1) as [response w2]; simpl;
    rewrite <- app_assoc; simpl;
    unfold bind at 1; unfold lift at 1;
    (destruct (response_json response) as [?|result]; [done|]);
    (destruct (status_code response =? 200); [|done]);
    unfold bind at 1; unfold lift;
    (destruct (subscript result "task_id"); [done|]);
    unfold bind, ret;
    by destruct (_wait_for_task _ _ _ _ _) as [[?|?] ?].
Qed.

(** X6.  When the server answers the first request of a task-starting
    operation with a status other than 200 and a body that parses as JSON,
    the operation hands back that raw response: nothing is raised, the task
    poller is not entered, and one credential call and one request are all
    that happened. *)
Theorem async_rejected (self : client) (op : async_op) (st : state) :
  async_supported op ->
  status_code (exchange (async_request self op) st).1 <> 200 ->
  is_Some (body (exchange (async_request self op) st).1) ->
  run_async self op st
  = (inr (Resp (exchange (async_request self op) st).1),
     (exchange (async_request self op) st).2).
Proof.
  intros Hop Hstatus%Z.eqb_neq [v Hv].
  rewrite run_async_eq by done. unfold response_json. by rewrite Hv, Hstatus.
Qed.

(** X7.  When the server accepts with status 200 but its JSON object has no
    "task_id", the operation raises [KeyError('task_id')] right after that
    one request, without polling. *)
Theorem async_missing_task_id (self : client) (op : async_op) (st : state)
    (kvs : list (string * json)) :
  async_supported op ->
  status_code (exchange (async_request self op) st).1 = 200 ->
  response_json (exchange (async_request self op) st).1 = inr (JDict kvs) ->
  Dict.get "task_id" kvs = None ->
  run_async self op st
  = (inl (KeyError (JStr "task_id")), (exchange (async_request self op) st).2).
Proof.
  intros Hop Hstatus%Z.eqb_eq Hbody Hmissing.
  rewrite run_async_eq, Hbody, Hstatus by done. simpl. by rewrite Hmissing.
Qed.

(** X8.  A task-starting operation that is accepted and whose task is
    reported done at poll [k] within the budget, after answers whose bodies
    parse as JSON, returns the "result" field of that report after [k + 2]
    requests in all, having slept [k] times, each time 20 seconds for
    [deploy] and [self.poll_interval] for the others, when [time.sleep]
    takes that interval. *)
Theorem async_completes (self : client) (op : async_op) (st : state)
    (accepted_body task_id resp v : json) (k : nat) :
  async_supported op ->
  status_code (exchange (async_request self op) st).1 = 200 ->
  response_json (exchange (async_request self op) st).1 = inr accepted_body ->
  subscript accepted_body "task_id" = inr task_id ->
  Z.of_nat k < max_attempts self ->
  0 <= async_interval self op <= sleep_limit ->
  (forall i, (i < k)%nat ->
     status_code
       (nth_poll self task_id i (world (exchange (async_request self op) st).2)).1
     <> 200
     /\ is_Some
          (body (nth_poll self task_id i
                   (world (exchange (async_request self op) st).2)).1)) ->
  status_code
    (nth_poll self task_id k (world (exchange (async_request self op) st).2)).1
  = 200 ->
  response_json
    (nth_poll self task_id k (world (exchange (async_request self op) st).2)).1
  = inr resp ->
  subscript resp "result" = inr v ->
  exists st' delta,
    run_async self op st = (inr (Json v), st')
    /\ trace st' = (trace st ++ delta)%list
    /\ length (http_requests delta) = S (S k)
    /\ sleeps delta = replicate k (async_interval self op).
Proof.
  intros Hop Hstatus%Z.eqb_eq Hbody Hid Hbudget Hinterval Hbefore Hk Hresp Hresult.
  rewrite run_async_eq, Hbody, Hstatus, Hid by done.
  destruct (while_attempts_success self task_id (max_attempts self)
              (async_interval self op) k resp Hinterval 0
              (exchange (async_request self op) st).2)
    as (st' & delta & Hrun & _ & _ & Htrace & Hreqs & Hsleeps);
    [lia | done | done | done |].
  unfold _wait_for_task, bind, lift. rewrite async_interval_eq, Hrun. simpl.
  rewrite Hresult.
  exists st', ([Credentials;
                Http (async_request self op (client_credentials (world st)).1)]
               ++ delta)%list.
  split; [done|]. split.
  { rewrite Htrace. unfold exchange.
    destruct (client_credentials (world st)) as [token w1].
    destruct (requests_send _ w1). simpl. by rewrite <- app_assoc. }
  rewrite http_requests_app, sleeps_app, Hsleeps, length_app, Hreqs. done.
Qed.

Lemma poll_events_sleeps (self : client) (task_id : json) (interval : Z)
    (delta : list event) :
  Forall (poll_event self task_id interval) delta ->
  Forall (fun s => s = interval) (sleeps delta).
Proof.
  induction 1 as [|e delta He _ IH]; [constructor|].
  destruct e; unfold sleeps in *; simpl; try done. by constructor.
Qed.

(** X9.  Whatever the server answers, a task-starting operation sends at
    most one request more than [self.max_attempts], fetches one credential
    for each request, sleeps only its own interval (20 seconds for
    [deploy], [self.poll_interval] for the others), and leaves the store
    alone. *)
Theorem async_trace_discipline (self : client) (op : async_op) (st : state) :
  exists delta,
    trace (run_async self op st).2 = (trace st ++ delta)%list
    /\ heap (run_async self op st).2 = heap st
    /\ (length (http_requests delta) <= S (Z.to_nat (max_attempts self)))%nat
    /\ credential_calls delta = length (http_requests delta)
    /\ Forall (fun s => s = async_interval self op) (sleeps delta).
Proof.
  assert (async_supported op \/ ~ async_supported op) as [Hop|Hop].
  { destruct op; simpl; try by left.
    destruct (decide (prediction_method ∈ supported_prediction_methods)); auto. }
  2: { destruct op; simpl in *; try by destruct Hop.
       unfold predict. rewrite bool_decide_eq_false_2 by done.
       exists []. rewrite app_nil_r. unfold raise, http_requests. simpl.
       repeat split; try done; lia. }
  rewrite run_async_eq by done.
  assert (trace (exchange (async_request self op) st).2
          = (trace st ++ [Credentials;
                          Http (async_request self op
                                  (client_credentials (world st)).1)])%list
          /\ heap (exchange (async_request self op) st).2 = heap st)
    as [Htrace1 Hheap1].
  { unfold exchange. destruct (client_credentials (world st)) as [token w1].
    by destruct (requests_send _ w1). }
  assert (exists delta,
            trace (exchange (async_request self op) st).2 = (trace st ++ delta)%list
            /\ heap (exchange (async_request self op) st).2 = heap st
            /\ (length (http_requests delta) <= S (Z.to_nat (max_attempts self)))%nat
            /\ credential_calls delta = length (http_requests delta)
            /\ Forall (fun s => s = async_interval self op) (sleeps delta))
    as Hone.
  { eexists. split; [exact Htrace1|]. split; [exact Hheap1|].
    unfold http_requests, credential_calls, sleeps. simpl.
    repeat split; [lia | constructor]. }
  destruct (response_json _) as [e|result]; [exact Hone|].
  destruct (status_code _ =? 200); [|exact Hone].
  destruct (subscript _ "task_id") as [e|task_id]; [exact Hone|].
  pose proof (wait_for_task_state self task_id None (async_interval_arg op)
                (exchange (async_request self op) st).2) as Hstate.
  destruct (while_attempts_invariant self task_id (max_attempts self)
              match async_interval_arg op with
              | None => poll_interval self
              | Some n => n
              end _ 0 (exchange (async_request self op) st).2 eq_refl)
    as (delta & Htrace & Hheap & Hevents & Hreqs & _ & Hcreds).
  apply poll_events_sleeps in Hevents. rewrite async_interval_eq in Hevents.
  assert (trace (_wait_for_task self task_id None (async_interval_arg op)
                   (exchange (async_request self op) st).2).2
          = (trace st ++ ([Credentials;
                           Http (async_request self op
                                   (client_credentials (world st)).1)]
                          ++ delta))%list
          /\ heap (_wait_for_task self task_id None (async_interval_arg op)
                     (exchange (async_request self op) st).2).2 = heap st)
    as [Htrace2 Hheap2].
  { rewrite Hstate, Htrace, Hheap, Htrace1, Hheap1. by rewrite <- app_assoc. }
  clear Hstate Htrace Hheap.
  exists ([Credentials;
           Http (async_request self op (client_credentials (world st)).1)]
          ++ delta)%list.
  rewrite Z.sub_0_r in Hreqs.
  split; [by destruct (_wait_for_task _ _ _ _ _) as [[e|r] st']|].
  split; [by destruct (_wait_for_task _ _ _ _ _) as [[e|r] st']|].
  unfold http_requests, credential_calls, sleeps in *. simpl.
  split; [exact (le_n_S _ _ Hreqs)|].
  split; [exact (f_equal S Hcreds) | exact Hevents].
Qed.

Lemma exchange_bind {A : Type} (mk : string -> request) (body : response -> M A)
    (st : state) :
  (token <- credentials ;; response <- requests (mk token) ;; body response) st
  = body (exchange mk st).1 (exchange mk st).2.
Proof.
  unfold bind, credentials, requests, exchange.
  destruct (client_credentials (world st)) as [token w1]. simpl.
  destruct (requests_send (mk token) w1) as [response w2]. simpl.
  by rewrite <- app_assoc.
Qed.

(** X10.  A first answer whose body is not JSON (the HTML page of a
    gateway, say) makes every operation of the facade raise
    [JSONDecodeError] right after its one request, whatever the status
    code: a task-starting operation does not hand back the raw response
    then, and nothing is polled. *)
Theorem non_json_answer_raises (self : client) (st : state) :
  (forall op,
     async_supported op ->
     body (exchange (async_request self op) st).1 = None ->
     run_async self op st
     = (inl JSONDecodeError, (exchange (async_request self op) st).2))
  /\ (forall op,
        body (exchange (sync_request self op) st).1 = None ->
        run_sync self op st
        = (inl JSONDecodeError, (exchange (sync_request self op) st).2)).
Proof.
  split.
  - intros op Hop Hbody. rewrite run_async_eq by done.
    unfold response_json. by rewrite Hbody.
  - intros op Hbody.
    assert (run_sync self op st
            = lift (response_json (exchange (sync_request self op) st).1)
                (exchange (sync_request self op) st).2) as ->.
    { destruct op; simpl;
        [unfold stats | unfold deployed_models | unfold deployed_model_workers
        | unfold update];
        by rewrite (exchange_bind _ (fun response => lift (response_json response))). }
    unfold lift, response_json. by rewrite Hbody.
Qed.

(** X11.  [__call__] on a prediction that the server rejects with a body
    that parses as JSON: [predict] hands back the raw response, and
    subscripting it in the codec raises a [TypeError]; one request was
    sent. *)
Theorem call_rejected (self : client) (model_name pipeline : string)
    (model_request : json) (st : state) :
  pipeline ∈ supported_prediction_methods ->
  status_code
    (exchange (async_request self (OpPredict model_name pipeline model_request)) st).1
  <> 200 ->
  is_Some
    (body (exchange (async_request self
                       (OpPredict model_name pipeline model_request)) st).1) ->
  (__call__ self model_name pipeline model_request st).1
  = inl (TypeError "<class 'requests.models.Response'>")
  /\ trace (__call__ self model_name pipeline model_request st).2
     = trace
         (exchange (async_request self (OpPredict model_name pipeline model_request))
            st).2.
Proof.
  intros Hm Hstatus%Z.eqb_neq [v Hv].
  pose proof (run_async_eq self (OpPredict model_name pipeline model_request) st Hm)
    as Hrun.
  unfold response_json in Hrun. rewrite Hv, Hstatus in Hrun. simpl in Hrun.
  unfold __call__, bind. rewrite Hrun. unfold alloc. simpl.
  unfold decode_model_api_response. simpl. by rewrite lookup_insert_eq.
Qed.

(** ** More on the payload codec *)

Lemma comprehension_error {A B : Type} (f : A -> result B) (P : exn -> Prop)
    (xs : list A) (e : exn) :
  (forall x e', f x = inl e' -> P e') ->
  comprehension f xs = inl e -> P e.
Proof.
  intros Hf. induction xs as [|x r IH]; simpl; [done|].
  destruct (f x) as [e'|y] eqn:Hx.
  - intros [= <-]. by eapply Hf.
  - destruct (comprehension f r); [|done]. intros [= <-]. by apply IH.
Qed.

Lemma comprehension_error_in {A B : Type} (f : A -> result B) (xs : list A) (e : exn) :
  comprehension f xs = inl e -> exists x, x ∈ xs /\ f x = inl e.
Proof.
  induction xs as [|x r IH]; simpl; [done|].
  destruct (f x) as [e'|y] eqn:Hx.
  - intros [= <-]. exists x. split; [left | done].
  - destruct (comprehension f r); [|done]. intros [= <-].
    destruct (IH eq_refl) as (x' & Hin & Hx'). exists x'. split; [by right | done].
Qed.

Lemma comprehension_first_failure {A B : Type} (f : A -> result B)
    (pre post : list A) (x : A) (e : exn) :
  Forall (fun y => exists z, f y = inr z) pre ->
  f x = inl e ->
  comprehension f (pre ++ x :: post) = inl e.
Proof.
  intros Hpre Hx. induction Hpre as [|y pre [z Hz] _ IH]; simpl.
  - by rewrite Hx.
  - by rewrite Hz, IH.
Qed.

Lemma decode_error (s : string) (e : exn) :
  _decode s = inl e -> (exists le, e = LibraryError le) \/ e = UnicodeEncodeError.
Proof.
  unfold _decode, encode, of_lib, rbind.
  destruct (has_surrogate _); [intros [= <-]; by right|].
  destruct (base64_decodebytes _) as [le|b]; simpl;
    [intros [= <-]; left; by eexists|].
  destruct (np_load b) as [le|a]; [intros [= <-]; left; by eexists | done].
Qed.

(** X12.  [dec_or_iterate] raises nothing but its own unexpected-value
    [ValueError], what base64 and numpy raise, and the [UnicodeEncodeError]
    of encoding a string that holds a lone surrogate; it raises the
    [ValueError] only on a value with a [None], [bool] or number among its
    list elements, and it never succeeds on such a value. *)
Theorem dec_or_iterate_outcome (val : json) :
  (forall out, dec_or_iterate val = inr out -> scalar_free val = true)
  /\ (forall e, dec_or_iterate val = inl e ->
        (exists t, e = ValueError_unexpected_value t /\ scalar_free val = false)
        \/ (exists le, e = LibraryError le)
        \/ e = UnicodeEncodeError).
Proof.
  induction val as [ | b | n | x | s | xs IH | kvs _ ] using json_induction;
    try (split; [done | intros e [= <-]; left; by eexists]).
  - split; [done|]. intros e. rewrite dec_or_iterate_str.
    destruct (_decode s) as [e'|a] eqn:Hs; simpl; [|done].
    intros [= <-]. right. by eapply decode_error.
  - rewrite dec_or_iterate_list. split.
    + intros out.
      destruct (comprehension dec_or_iterate xs) as [e|ds] eqn:Hds; simpl; [done|].
      intros _. apply comprehension_inr in Hds.
      revert IH. induction Hds as [|x d xs ds Hx _ IHrest]; intros IH; [done|].
      apply Forall_cons in IH as [[IHx _] IHxs].
      simpl. rewrite (IHx _ Hx). by apply IHrest.
    + intros e.
      destruct (comprehension dec_or_iterate xs) as [e'|ds] eqn:Hds; simpl; [|done].
      intros [= <-]. apply comprehension_error_in in Hds as (x & Hin & Hx).
      rewrite Forall_forall in IH.
      destruct (proj2 (IH x Hin) _ Hx) as [(t & -> & Hfalse)|Hlib]; [|by right].
      left. exists t. split; [done|]. simpl.
      destruct (forallb scalar_free xs) eqn:Hall; [|done].
      rewrite forallb_forall in Hall.
      rewrite <- Hfalse. symmetry. apply Hall. by apply list_elem_of_In.
  - split; [done|]. intros e. simpl.
    destruct (comprehension _ (Dict.keys kvs)) as [e'|ds] eqn:Hds; simpl; [|done].
    intros [= <-]. right.
    apply (comprehension_error _
             (fun e => (exists le, e = LibraryError le) \/ e = UnicodeEncodeError))
      in Hds; [done|].
    intros k e0. destruct (_decode k) as [e1|a] eqn:Hk; simpl; [|done].
    intros [= <-]. by eapply decode_error.
Qed.

(** X14.  What [decode_model_api_response] raises on a response it cannot
    read, in the order in which it looks: a [TypeError] when the response
    is not a mapping, [KeyError] for a missing "model_output_is_encoded",
    then for a missing "model_outputs", and [AttributeError] when
    "model_outputs" is not an object.  The response is left as it was. *)
Theorem decode_unreadable_response (st : state) (l : positive) (o : object) :
  heap st !! l = Some o ->
  (forall e, fields_of o = inl e -> decode_model_api_response l st = (inl e, st))
  /\ (forall d, fields_of o = inr d ->
        (Dict.get "model_output_is_encoded" d = None ->
         decode_model_api_response l st
         = (inl (KeyError (JStr "model_output_is_encoded")), st))
        /\ (forall flag, Dict.get "model_output_is_encoded" d = Some flag ->
             (Dict.get "model_outputs" d = None ->
              decode_model_api_response l st
              = (inl (KeyError (JStr "model_outputs")), st))
             /\ (forall v, Dict.get "model_outputs" d = Some (FJson v) ->
                  (forall kvs, v <> JDict kvs) ->
                  decode_model_api_response l st
                  = (inl (AttributeError (type_name v)), st)))).
Proof.
  intros Ho. unfold decode_model_api_response, field_subscript. rewrite Ho.
  split; [by intros e ->|].
  intros d ->. simpl. split; [by intros ->|].
  intros flag ->. simpl. split; [by intros ->|].
  intros v -> Hv. simpl. destruct v; try done. by destruct (Hv kvs).
Qed.

Lemma dict_comprehension_keys {A B : Type} (f : A -> result B)
    (kvs : list (string * A)) (new : list (string * B)) :
  dict_comprehension f kvs = inr new -> Dict.keys new = Dict.keys kvs.
Proof.
  unfold dict_comprehension, Dict.keys. intros Hall%comprehension_inr.
  induction Hall as [|[k v] [k' v'] kvs new Hkv _ IH]; [done|].
  rewrite !fmap_cons. f_equal; [|exact IH].
  simpl in *. destruct (f v); simpl in Hkv; [done|]. by injection Hkv as <- _.
Qed.

(** X15.  On either branch, the decoded "model_outputs" of a response that
    decodes has the keys of the original "model_outputs", in the same
    order. *)
Theorem decode_keeps_output_keys (st st' : state) (l l' : positive)
    (o : object) (d : list (string * field)) (kvs : list (string * json)) :
  decode_model_api_response l st = (inr l', st') ->
  heap st !! l = Some o ->
  fields_of o = inr d ->
  Dict.get "model_outputs" d = Some (FJson (JDict kvs)) ->
  exists d' new,
    heap st' !! l = Some (ODict d')
    /\ Dict.get "model_outputs" d' = Some (FDecoded new)
    /\ Dict.keys new = Dict.keys kvs.
Proof.
  intros (o0 & d0 & flag & outs & new & Ho0 & Hd0 & _ & Houts & Hnew & -> & ->)
    %decode_inr_inv Ho Hd Hkvs.
  rewrite Ho in Ho0. injection Ho0 as <-.
  rewrite Hd in Hd0. injection Hd0 as <-.
  rewrite Hkvs in Houts. injection Houts as <-.
  exists (Dict.set "model_outputs" (FDecoded new) d), new.
  split; [apply lookup_insert_eq|]. split; [apply dict_get_set_eq|].
  simpl in Hnew. destruct (field_truthy flag); by eapply dict_comprehension_keys.
Qed.

(** X16.  On the encoded branch the outputs are decoded in order and the
    first one that fails decides: its exception is the one raised, and the
    outputs after it are not examined. *)
Theorem decode_outputs_first_failure (pre post : list (string * json))
    (k : string) (v : json) (e : exn) :
  Forall (fun kv => exists out, dec_or_iterate kv.2 = inr out) pre ->
  dec_or_iterate v = inl e ->
  decode_outputs true (FJson (JDict (pre ++ (k, v) :: post))) = inl e.
Proof.
  intros Hpre Hv. simpl. unfold dict_comprehension.
  apply comprehension_first_failure.
  - eapply Forall_impl; [exact Hpre|]. intros [k' v'] [out Hout]. simpl in *.
    rewrite Hout. by eexists.
  - simpl. by rewrite Hv.
Qed.

(** ** [get_models_in_deployment] *)

Lemma get_models_in_deployment_eq (self : client) (st : state) :
  get_models_in_deployment self st
  = if (400 <=? status_code (exchange (models_task_request self) st).1)
       && (status_code (exchange (models_task_request self) st).1 <? 600)
    then (inl (HTTPError (status_code (exchange (models_task_request self) st).1)),
          (exchange (models_task_request self) st).2)
    else (rbind (response_json (exchange (models_task_request self) st).1)
            (fun running_tasks =>
               rbind (dict_values running_tasks)
                 (fun workers => for_each scan_worker workers [])),
          (exchange (models_task_request self) st).2).
Proof.
  unfold get_models_in_deployment, bind, credentials, requests, exchange,
    raise_for_status, raise, ret, lift, models_task_request.
  destruct (client_credentials (world st)) as [token w1]. simpl.
  destruct (requests_send _ w1) as [response w2]. simpl.
  rewrite <- app_assoc. simpl.
  destruct ((400 <=? status_code response) && (status_code response <? 600));
    [done|].
  simpl. by destruct (response_json response).
Qed.

(** X17.  [get_models_in_deployment] raises [HTTPError] on a 4xx or 5xx
    answer, right after its one request and before reading the body.  Its
    request always verifies TLS, whatever [self.verify_ssl] says. *)
Theorem get_models_in_deployment_http_error (self : client) (st : state) :
  400 <= status_code (exchange (models_task_request self) st).1 < 600 ->
  get_models_in_deployment self st
  = (inl (HTTPError (status_code (exchange (models_task_request self) st).1)),
     (exchange (models_task_request self) st).2)
  /\ verify (models_task_request self (client_credentials (world st)).1) = true.
Proof.
  intros [Hlo Hhi]. rewrite get_models_in_deployment_eq.
  apply Z.leb_le in Hlo. apply Z.ltb_lt in Hhi. by rewrite Hlo, Hhi.
Qed.

Lemma kv_get_set_str (a b : string) (v : json) (d : list (json * json)) :
  kv_get (JStr a) (kv_set (JStr b) v d)
  = if String.eqb b a then Some v else kv_get (JStr a) d.
Proof.
  induction d as [|[k' v'] r IH]; [done|].
  cbn [kv_set kv_get].
  destruct (py_eq k' (JStr b)) eqn:Eb.
  - apply py_eq_str in Eb. subst k'. cbn [kv_get].
    change (py_eq (JStr b) (JStr a)) with (String.eqb b a).
    by destruct (String.eqb b a).
  - cbn [kv_get]. rewrite IH.
    destruct (py_eq k' (JStr a)) eqn:Ea; [|done].
    apply py_eq_str in Ea. subst k'.
    change (py_eq (JStr a) (JStr b)) with (String.eqb a b) in Eb.
    rewrite String.eqb_sym, Eb. done.
Qed.

Lemma scan_task_well_formed (models : list (json * json)) (task : json) :
  well_formed_task task ->
  scan_task models task = inr (record_deployment models task).
Proof.
  intros (kvs & name & -> & Hname & Hdeploy).
  unfold scan_task, record_deployment, deploy_entry, subscript.
  rewrite Hname. simpl.
  destruct (py_eq name (JStr "tasks.tasks.deploy_task")) eqn:E.
  - apply py_eq_str in E. subst name.
    destruct (Hdeploy eq_refl) as (args0 & rest & mn & mt & Hargs & Hmn & Hmt).
    rewrite Hargs. simpl. rewrite Hmn, Hmt. done.
  - destruct name; try done. simpl in E. by rewrite E.
Qed.

Lemma for_each_scan_task (ts : list json) :
  Forall well_formed_task ts ->
  forall models,
    for_each scan_task ts models = inr (fold_left record_deployment ts models).
Proof.
  induction 1 as [|t ts Ht _ IH]; intros models; simpl; [done|].
  rewrite (scan_task_well_formed _ _ Ht). apply IH.
Qed.

Lemma for_each_concat {A S T : Type} (body : S -> A -> result S)
    (step : S -> T -> S) (g : A -> list T) (xs : list A) :
  Forall (fun x => forall acc, body acc x = inr (fold_left step (g x) acc)) xs ->
  forall acc,
    for_each body xs acc = inr (fold_left step (concat (g <$> xs)) acc).
Proof.
  induction 1 as [|x xs Hx _ IH]; intros acc; simpl; [done|].
  rewrite Hx, fold_left_app. apply IH.
Qed.

Lemma fold_record_deployment_lookup (model_name : string) (tasks : list json) :
  forall models,
    kv_get (JStr model_name) (fold_left record_deployment tasks models)
    = match last_deploy_type model_name tasks with
      | Some model_type => Some model_type
      | None => kv_get (JStr model_name) models
      end.
Proof.
  unfold last_deploy_type.
  induction tasks as [|task tasks IH]; intros models; simpl; [done|].
  rewrite IH. unfold record_deployment.
  destruct (deploy_entry task) as [[n model_type]|]; [|done].
  rewrite kv_get_set_str.
  destruct (String.eqb n model_name); [|done].
  rewrite last_cons. by destruct (last _).
Qed.

(** X18.  The dictionary of [get_models_in_deployment], for an answer that
    is not an HTTP error and whose body is worker to queue to list of
    readable task descriptors: a model name leads to the type announced by
    the last deploy task for that name in scan order, and to nothing when no
    deploy task names it.  Tasks of other kinds leave no trace. *)
Theorem get_models_in_deployment_last_wins (self : client) (st : state)
    (running_tasks : json) :
  ~ 400 <= status_code (exchange (models_task_request self) st).1 < 600 ->
  response_json (exchange (models_task_request self) st).1 = inr running_tasks ->
  well_formed_running_tasks running_tasks ->
  exists models,
    get_models_in_deployment self st
    = (inr models, (exchange (models_task_request self) st).2)
    /\ forall model_name,
         kv_get (JStr model_name) models
         = last_deploy_type model_name (all_tasks running_tasks).
Proof.
  intros Hstatus Hparsed (workers & Hbody & Hworkers).
  rewrite get_models_in_deployment_eq, Hparsed, Hbody.
  destruct ((400 <=? _) && (_ <? 600)) eqn:E.
  { apply andb_true_iff in E as [Hlo%Z.leb_le Hhi%Z.ltb_lt]. lia. }
  simpl.
  rewrite (for_each_concat scan_worker record_deployment worker_tasks).
  - eexists. split; [reflexivity|]. intros model_name.
    rewrite fold_record_deployment_lookup. simpl.
    by destruct (last_deploy_type _ _).
  - eapply Forall_impl; [exact Hworkers|].
    intros worker (queues & -> & Hqueues) acc. unfold scan_worker. simpl.
    apply (for_each_concat scan_tasks record_deployment queue_tasks).
    eapply Forall_impl; [exact Hqueues|].
    intros queue (ts & -> & Hts) acc'. unfold scan_tasks. simpl.
    by apply for_each_scan_task.
Qed.

(** ** More on the deployment guard *)

(** X19.  Without a base model the guard does nothing at all: when
    "base_model" is absent, or present with a falsy value ([None], the
    empty string, zero, an empty list or object), it returns with the state
    untouched, so without a single credential or HTTP call. *)
Theorem deploy_model_if_not_exists_without_base_model (self : client)
    (default_skill_args : list (string * json)) (st : state) :
  match Dict.get "base_model" default_skill_args with
  | Some model_name => truthy model_name = false
  | None => True
  end ->
  deploy_model_if_not_exists self default_skill_args st = (inr tt, st).
Proof.
  unfold deploy_model_if_not_exists.
  destruct (Dict.get "base_model" default_skill_args) as [model_name|].
  - by intros ->.
  - done.
Qed.

(** X20.  Whatever the arguments and whatever the server answers, one run
    of the guard posts to the deploy endpoint at most once, and what it
    posts is the attribute set identifier, model_name and model_type built
    from the base model and the derived type. *)
Theorem deploy_model_if_not_exists_at_most_once (self : client)
    (default_skill_args : list (string * json)) (st : state) :
  deploy_calls self (trace (deploy_model_if_not_exists self default_skill_args st).2)
  = deploy_calls self (trace st)
  \/ exists model_name,
       Dict.get "base_model" default_skill_args = Some model_name
       /\ deploy_calls self
            (trace (deploy_model_if_not_exists self default_skill_args st).2)
          = (deploy_calls self (trace st)
             ++ [Some (JDict [("identifier", model_name);
                              ("model_name", model_name);
                              ("model_type",
                               JStr (model_type_of default_skill_args))])])%list.
Proof.
  remember (deploy_model_if_not_exists self default_skill_args st) as run eqn:Hrun.
  unfold deploy_model_if_not_exists in Hrun.
  destruct (Dict.get "base_model" default_skill_args) as [model_name|] eqn:Hbase;
    [|left; by subst run].
  destruct (truthy model_name); [|left; by subst run]. simpl in Hrun.
  unfold bind at 1 in Hrun.
  pose proof (deployed_models_deploy_calls self st) as Hcalls1.
  destruct (deployed_models self st) as [[e|deployed] st1]; simpl in Hcalls1;
    [left; by subst run|].
  unfold bind at 1 in Hrun. unfold lift at 1 in Hrun.
  destruct (rbind (iterate deployed) _) as [e|[|]];
    [left; by subst run | left; by subst run |].
  unfold bind at 1 in Hrun.
  pose proof (get_models_in_deployment_deploy_calls self st1) as Hcalls2.
  destruct (get_models_in_deployment self st1) as [[e|currently] st2];
    simpl in Hcalls2; [left; subst run; simpl; congruence|].
  unfold bind at 1 in Hrun. unfold lift at 1 in Hrun.
  destruct (get_or_empty model_name currently) as [e|in_flight];
    [left; subst run; simpl; congruence|].
  destruct (py_eq in_flight _); [left; subst run; simpl; congruence|].
  right. exists model_name. split; [done|].
  unfold bind, ret in Hrun.
  pose proof (deploy_deploy_calls self
                (model_attributes_of model_name (model_type_of default_skill_args))
                st2) as Hcalls3.
  rewrite Hcalls2, Hcalls1 in Hcalls3.
  destruct (deploy self _ st2) as [[e|r] st3]; subst run; exact Hcalls3.
Qed.

(** X21.  When the model is not among the deployed ones and the look at
    the running tasks raises (an HTTP error, a body it cannot read), the
    guard raises the same exception and deploys nothing. *)
Theorem deploy_model_if_not_exists_check_fails (self : client)
    (default_skill_args : list (string * json)) (name : string)
    (st st1 st2 : state) (records : list json) (e : exn) :
  Dict.get "base_model" default_skill_args = Some (JStr name) ->
  name <> "" ->
  deployed_models self st = (inr (JList records), st1) ->
  Forall is_model_record records ->
  ~ Exists (record_matches name (model_type_of default_skill_args)) records ->
  get_models_in_deployment self st1 = (inl e, st2) ->
  deploy_model_if_not_exists self default_skill_args st = (inl e, st2)
  /\ deploy_calls self (trace st2) = deploy_calls self (trace st).
Proof.
  intros Hbase Hname Hdm Hrecords Hnone Hcheck.
  pose proof (deployed_models_deploy_calls self st) as Hcalls1.
  rewrite Hdm in Hcalls1.
  pose proof (get_models_in_deployment_deploy_calls self st1) as Hcalls2.
  rewrite Hcheck in Hcalls2. simpl in *.
  split; [|congruence].
  unfold deploy_model_if_not_exists. rewrite Hbase. simpl.
  destruct (String.eqb name "") eqn:E; [by apply String.eqb_eq in E|]. simpl.
  unfold bind at 1. rewrite Hdm.
  unfold bind at 1. unfold lift at 1. simpl.
  rewrite (any_model_matches_false _ _ _ Hrecords Hnone).
  unfold bind at 1. by rewrite Hcheck.
Qed.

(** X22.  When [deployed_models] answers a non-empty JSON object rather than
    a list (an error body, say), the guard iterates over its keys and
    raises the [TypeError] of subscripting a [str] with 'model_name'; it
    goes no further. *)
Theorem deploy_model_if_not_exists_object_answer (self : client)
    (default_skill_args : list (string * json)) (name : string)
    (st st1 : state) (k : string) (v : json) (kvs : list (string * json)) :
  Dict.get "base_model" default_skill_args = Some (JStr name) ->
  name <> "" ->
  deployed_models self st = (inr (JDict ((k, v) :: kvs)), st1) ->
  deploy_model_if_not_exists self default_skill_args st
  = (inl (TypeError "<class 'str'>"), st1).
Proof.
  intros Hbase Hname Hdm.
  unfold deploy_model_if_not_exists. rewrite Hbase. simpl.
  destruct (String.eqb name "") eqn:E; [by apply String.eqb_eq in E|]. simpl.
  unfold bind at 1. by rewrite Hdm.
Qed.

(** X23.  When the running-tasks answer is not an HTTP error and its body
    parses as JSON but is not a JSON object, [get_models_in_deployment]
    raises the [AttributeError] of calling [.values()] on it; when the body
    does not parse, it raises [JSONDecodeError]. *)
Theorem get_models_in_deployment_unreadable_body (self : client) (st : state) :
  ~ 400 <= status_code (exchange (models_task_request self) st).1 < 600 ->
  (forall running_tasks,
     response_json (exchange (models_task_request self) st).1 = inr running_tasks ->
     (forall workers, running_tasks <> JDict workers) ->
     get_models_in_deployment self st
     = (inl (AttributeError (type_name running_tasks)),
        (exchange (models_task_request self) st).2))
  /\ (body (exchange (models_task_request self) st).1 = None ->
      get_models_in_deployment self st
      = (inl JSONDecodeError, (exchange (models_task_request self) st).2)).
Proof.
  intros Hstatus. rewrite get_models_in_deployment_eq.
  destruct ((400 <=? _) && (_ <? 600)) eqn:E.
  { apply andb_true_iff in E as [Hlo%Z.leb_le Hhi%Z.ltb_lt]. lia. }
  split.
  - intros running_tasks -> Hbody. simpl.
    destruct running_tasks as [ | | | | | |workers]; try done.
    by destruct (Hbody workers).
  - intros Hbody. unfold response_json. by rewrite Hbody.
Qed.

End Properties.

(** * Runs against the scripted server *)

Section Runs.

#[local] Existing Instance Fake.numerics.
#[local] Existing Instance Fake.environment.

Import Fake.

(** C2.  With [max_attempts=3], [poll_interval=0] and an endpoint that never
    answers 200, the poller makes exactly 3 requests and sleeps 3 times, and
    then raises the [TypeError] of [None["result"]] instead of handing back
    [None]. *)
Theorem wait_for_task_never_200_raises :
  (_wait_for_task self (JStr "t1") (Some 3) (Some 0) (start [])).1
  = inl (TypeError "<class 'NoneType'>")
  /\ length (http_requests
               (trace (_wait_for_task self (JStr "t1") (Some 3) (Some 0) (start [])).2))
     = 3%nat
  /\ sleeps (trace (_wait_for_task self (JStr "t1") (Some 3) (Some 0) (start [])).2)
     = [0; 0; 0].
Proof. vm_compute. by repeat split. Qed.

Lemma wait_for_task_first_success_witness :
  exists st' delta,
    _wait_for_task self (JStr "t1") (Some 3) (Some 0)
      (start [pending; pending; done_with (JInt 42)]) = (inr (JInt 42), st')
    /\ world st' = []
    /\ heap st' = ∅
    /\ trace st' = delta
    /\ length (http_requests delta) = 3%nat
    /\ sleeps delta = [0; 0].
Proof.
  apply (wait_for_task_first_success self (JStr "t1") (Some 3) (Some 0)
           (start [pending; pending; done_with (JInt 42)]) 2
           (JDict [("result", JInt 42)]) (JInt 42)).
  - reflexivity.
  - split; discriminate.
  - intros [|[|i]] Hi; [split; [discriminate | by eexists]
                       | split; [discriminate | by eexists] | lia].
  - reflexivity.
  - reflexivity.
  - reflexivity.
Defined.

(** C3 as stated fails: the second answer has status 200 and is within the
    budget of 3 attempts, but the first answer is the HTML page of a
    gateway, and parsing it raises before its status is looked at.  The
    poller never reaches the second answer. *)
Lemma wait_for_task_non_json_pending_answer :
  status_code (nth_poll self (JStr "t1") 1
                 (world (start [bad_gateway; done_with (JInt 42)]))).1 = 200
  /\ (_wait_for_task self (JStr "t1") (Some 3) (Some 0)
        (start [bad_gateway; done_with (JInt 42)])).1
     = inl JSONDecodeError
  /\ length (http_requests
               (trace (_wait_for_task self (JStr "t1") (Some 3) (Some 0)
                         (start [bad_gateway; done_with (JInt 42)])).2))
     = 1%nat.
Proof. vm_compute. by repeat split. Qed.

Lemma dec_or_iterate_preserves_structure_witness :
  exists out,
    dec_or_iterate
      (JList [JStr encoded_1_2; JList [JStr encoded_3; JStr encoded_1_2]])
    = inr out
    /\ decoded_shape out = Seq [Leaf; Seq [Leaf; Leaf]]
    /\ Forall2 (fun s a => _decode s = inr a)
         [encoded_1_2; encoded_3; encoded_1_2] (arrays out).
Proof.
  apply (dec_or_iterate_preserves_structure
           (JList [JStr encoded_1_2; JList [JStr encoded_3; JStr encoded_1_2]])).
  - reflexivity.
  - repeat constructor; eexists; vm_compute; reflexivity.
Defined.

Lemma decode_returns_same_mapping_witness :
  1%positive = 1%positive
  /\ exists o d d' flag outs new,
       heap (holding encoded_prediction) !! 1%positive = Some o
       /\ fields_of o = inr d
       /\ heap (decode_model_api_response 1 (holding encoded_prediction)).2
            !! 1%positive = Some (ODict d')
       /\ Dict.keys d' = Dict.keys d
       /\ (forall k, k <> "model_outputs" -> Dict.get k d' = Dict.get k d)
       /\ Dict.get "model_output_is_encoded" d = Some flag
       /\ Dict.get "model_outputs" d = Some outs
       /\ decode_outputs (field_truthy flag) outs = inr new
       /\ Dict.get "model_outputs" d' = Some (FDecoded new).
Proof.
  apply (decode_returns_same_mapping (holding encoded_prediction)
           (decode_model_api_response 1 (holding encoded_prediction)).2 1 1).
  apply injective_projections; [vm_compute; reflexivity | reflexivity].
Defined.

Lemma decode_plain_no_leaf_validation_witness :
  decode_model_api_response 1 (holding plain_prediction)
  = (inr 1%positive,
     assign_outputs (holding plain_prediction) 1
       [("model_outputs", FJson (JDict [("logits", JList [JInt 1; JInt 2])]));
        ("model_output_is_encoded", FJson (JBool false))]
       [("logits", array [1; 2])]).
Proof.
  destruct (decode_plain_no_leaf_validation (holding plain_prediction) 1
              (object_of (Json plain_prediction))
              [("model_outputs", FJson (JDict [("logits", JList [JInt 1; JInt 2])]));
               ("model_output_is_encoded", FJson (JBool false))]
              (FJson (JBool false)) eq_refl eq_refl eq_refl) as [_ Hplain].
  destruct (Hplain eq_refl) as [_ Hvalues].
  exact (Hvalues [("logits", JList [JInt 1; JInt 2])] eq_refl).
Defined.

Lemma call_decodes_prediction_witness :
  exists l st2,
    __call__ self "bert" "embedding" JNull
      (start [accepted; pending; done_with encoded_prediction]) = (inr l, st2)
    /\ heap st2 !! l
       = Some (ODict [("model_outputs",
                       FDecoded [("logits", DList [array [1; 2]; array [3]])]);
                      ("model_output_is_encoded", FJson (JBool true))])
    /\ length (http_requests (trace st2)) = 3%nat.
Proof.
  destruct (call_decodes_prediction self "bert" "embedding" JNull
              (start [accepted; pending; done_with encoded_prediction])
              (predict self "bert" "embedding" JNull
                 (start [accepted; pending; done_with encoded_prediction])).2
              [("model_outputs",
                JDict [("logits", JList [JStr encoded_1_2; JStr encoded_3])]);
               ("model_output_is_encoded", JBool true)]
              (JBool true)
              (JDict [("logits", JList [JStr encoded_1_2; JStr encoded_3])])
              [("logits", DList [array [1; 2]; array [3]])]
              ltac:(vm_compute; reflexivity) eq_refl eq_refl
              ltac:(vm_compute; reflexivity))
    as (l & st2 & Hrun & _ & Hobj & _ & _ & Htrace).
  exists l, st2. split; [exact Hrun|]. split; [exact Hobj|].
  rewrite Htrace. reflexivity.
Defined.

Lemma deploy_model_if_not_exists_triggers_iff_witness :
  deploy_calls self
    (trace (deploy_model_if_not_exists self [("base_model", JStr "bert")]
              (start [answer (JList [model_record "bert" "adapter"]);
                      answer (running_tasks [deploy_task "roberta" "transformer"]);
                      accepted; done_with (JStr "deployed")])).2)
  = [Some (JDict [("identifier", JStr "bert"); ("model_name", JStr "bert");
                  ("model_type", JStr "transformer")])].
Proof.
  destruct (deploy_model_if_not_exists_triggers_iff self
              [("base_model", JStr "bert")] "bert"
              (start [answer (JList [model_record "bert" "adapter"]);
                      answer (running_tasks [deploy_task "roberta" "transformer"]);
                      accepted; done_with (JStr "deployed")])
              (deployed_models self
                 (start [answer (JList [model_record "bert" "adapter"]);
                         answer (running_tasks [deploy_task "roberta" "transformer"]);
                         accepted; done_with (JStr "deployed")])).2
              [model_record "bert" "adapter"]
              eq_refl ltac:(discriminate) eq_refl
              ltac:(repeat constructor; by eexists _, _, _))
    as [_ Hrest].
  destruct (Hrest [(JStr "roberta", JStr "transformer")]
              (get_models_in_deployment self
                 (deployed_models self
                    (start [answer (JList [model_record "bert" "adapter"]);
                            answer (running_tasks
                                      [deploy_task "roberta" "transformer"]);
                            accepted; done_with (JStr "deployed")])).2).2
              eq_refl) as [_ Htrigger].
  - intros Hex. apply Exists_cons in Hex as [(kvs & [= <-] & _ & Ht)|Hex].
    + discriminate Ht.
    + by apply Exists_nil in Hex.
  - apply Htrigger. discriminate.
Defined.

Lemma model_type_derivation_witness :
  deploy_calls self
    (trace (deploy_model_if_not_exists self
              [("base_model", JStr "bert"); ("adapter", JNull)]
              (start [answer (JList [model_record "bert" "transformer"]);
                      answer (JDict []); accepted; done_with (JStr "deployed")])).2)
  = [Some (JDict [("identifier", JStr "bert"); ("model_name", JStr "bert");
                  ("model_type", JStr "adapter")])].
Proof.
  destruct (model_type_derivation self
              [("base_model", JStr "bert"); ("adapter", JNull)] "bert"
              (start [answer (JList [model_record "bert" "transformer"]);
                      answer (JDict []); accepted; done_with (JStr "deployed")])
              (deployed_models self
                 (start [answer (JList [model_record "bert" "transformer"]);
                         answer (JDict []); accepted;
                         done_with (JStr "deployed")])).2
              [model_record "bert" "transformer"]
              eq_refl ltac:(discriminate) eq_refl
              ltac:(repeat constructor; by eexists _, _, _))
    as [_ Hrest].
  destruct (Hrest []
              (get_models_in_deployment self
                 (deployed_models self
                    (start [answer (JList [model_record "bert" "transformer"]);
                            answer (JDict []); accepted;
                            done_with (JStr "deployed")])).2).2
              eq_refl) as [_ Hposts].
  - intros Hex. apply Exists_cons in Hex as [(kvs & [= <-] & _ & Ht)|Hex].
    + discriminate Ht.
    + by apply Exists_nil in Hex.
  - apply Hposts. discriminate.
Defined.

(** C5 as stated fails: after decoding a response whose outputs are plain
    lists, the call has succeeded and the mapping that was handed in no
    longer holds what it held. *)
Lemma decode_mutates_its_input :
  (decode_model_api_response 1 (holding plain_prediction)).1 = inr 1%positive
  /\ heap (decode_model_api_response 1 (holding plain_prediction)).2 !! 1%positive
     <> heap (holding plain_prediction) !! 1%positive.
Proof. vm_compute. split; [reflexivity | discriminate]. Qed.

(** C4 as stated fails: [predict] returns the polled result exactly as the
    server sent it, and the codec makes something else of that result. *)
Lemma predict_returns_undecoded_result :
  (predict self "bert" "embedding" JNull
     (start [accepted; pending; done_with encoded_prediction])).1
  = inr (Json encoded_prediction)
  /\ (decode_model_api_response 1 (holding encoded_prediction)).1 = inr 1%positive
  /\ heap (decode_model_api_response 1 (holding encoded_prediction)).2 !! 1%positive
     <> Some (object_of (Json encoded_prediction)).
Proof. vm_compute. repeat split. discriminate. Qed.

(** The three guard scenarios: the model is deployed, the model is in
    deployment, and neither. *)
Example guard_scenario_deployed :
  deploy_model_if_not_exists self [("base_model", JStr "bert")]
    (start [answer (JList [model_record "bert" "transformer"])])
  = (inr tt,
     (deployed_models self
        (start [answer (JList [model_record "bert" "transformer"])])).2).
Proof. reflexivity. Qed.

Example guard_scenario_in_deployment :
  deploy_calls self
    (trace (deploy_model_if_not_exists self [("base_model", JStr "bert")]
              (start [answer (JList []);
                      answer (running_tasks [deploy_task "bert" "transformer"])])).2)
  = [].
Proof. reflexivity. Qed.

Example guard_scenario_neither :
  deploy_calls self
    (trace (deploy_model_if_not_exists self [("base_model", JStr "bert")]
              (start [answer (JList []); answer (JDict []);
                      accepted; done_with (JStr "deployed")])).2)
  = [Some (JDict [("identifier", JStr "bert"); ("model_name", JStr "bert");
                  ("model_type", JStr "transformer")])].
Proof. reflexivity. Qed.

Example guard_adapter_type :
  deploy_calls self
    (trace (deploy_model_if_not_exists self
              [("base_model", JStr "bert"); ("adapter", JNull)]
              (start [answer (JList [model_record "bert" "transformer"]);
                      answer (JDict []); accepted; done_with (JStr "deployed")])).2)
  = [Some (JDict [("identifier", JStr "bert"); ("model_name", JStr "bert");
                  ("model_type", JStr "adapter")])].
Proof. reflexivity. Qed.

(** Runs for the further properties. *)

Lemma wait_for_task_exhausted_witness :
  exists st' delta,
    _wait_for_task self (JStr "t1") (Some 3) (Some 0)
      (start [pending; pending; pending])
    = (inl (TypeError "<class 'NoneType'>"), st')
    /\ trace st' = delta
    /\ length (http_requests delta) = 3%nat
    /\ sleeps delta = [0; 0; 0].
Proof.
  apply (wait_for_task_exhausted self (JStr "t1") (Some 3) (Some 0)
           (start [pending; pending; pending])).
  - split; discriminate.
  - intros [|[|[|i]]] Hi; try (split; [discriminate | by eexists]).
    simpl in Hi. lia.
Defined.

Lemma wait_for_task_no_budget_witness :
  _wait_for_task self (JStr "t1") (Some 0) None (start [pending])
  = (inl (TypeError "<class 'NoneType'>"), start [pending]).
Proof.
  apply (wait_for_task_no_budget self (JStr "t1") (Some 0) None (start [pending])).
  reflexivity.
Defined.

Lemma wait_for_task_negative_interval_witness :
  (_wait_for_task self (JStr "t1") (Some 3) (Some (-1)) (start [pending; pending])).1
  = inl ValueError_sleep_length
  /\ length (http_requests
               (trace (_wait_for_task self (JStr "t1") (Some 3) (Some (-1))
                         (start [pending; pending])).2)) = 1%nat.
Proof.
  rewrite (wait_for_task_negative_interval self (JStr "t1") (Some 3) (Some (-1))
             (start [pending; pending])).
  - split; reflexivity.
  - reflexivity.
  - reflexivity.
  - discriminate.
  - by eexists.
Defined.

Lemma wait_for_task_missing_result_witness :
  exists st' delta,
    _wait_for_task self (JStr "t1") (Some 3) (Some 0)
      (start [pending; answer (JDict [("status", JStr "done")])])
    = (inl (KeyError (JStr "result")), st')
    /\ trace st' = delta
    /\ length (http_requests delta) = 2%nat.
Proof.
  apply (wait_for_task_missing_result self (JStr "t1") (Some 3) (Some 0)
           (start [pending; answer (JDict [("status", JStr "done")])])
           1 [("status", JStr "done")]).
  - reflexivity.
  - split; discriminate.
  - intros [|i] Hi; [split; [discriminate | by eexists] | lia].
  - reflexivity.
  - reflexivity.
  - reflexivity.
Defined.

Lemma async_rejected_witness :
  (remove self "bert" (start [pending])).1 = inr (Resp pending).
Proof.
  exact (f_equal fst
           (async_rejected self (OpRemove "bert") (start [pending]) I
              ltac:(discriminate) ltac:(by eexists))).
Defined.

Lemma async_missing_task_id_witness :
  (add_worker self "bert" 2 (start [answer (JDict [])])).1
  = inl (KeyError (JStr "task_id")).
Proof.
  exact (f_equal fst
           (async_missing_task_id self (OpAddWorker "bert" 2)
              (start [answer (JDict [])]) [] I eq_refl eq_refl eq_refl)).
Defined.

Lemma async_completes_witness :
  exists st' delta,
    deploy self (model_record "bert" "transformer")
      (start [accepted; pending; done_with (JStr "deployed")])
    = (inr (Json (JStr "deployed")), st')
    /\ trace st' = delta
    /\ length (http_requests delta) = 3%nat
    /\ sleeps delta = [20].
Proof.
  apply (async_completes self (OpDeploy (model_record "bert" "transformer"))
           (start [accepted; pending; done_with (JStr "deployed")])
           (JDict [("task_id", JStr "t1")]) (JStr "t1")
           (JDict [("result", JStr "deployed")]) (JStr "deployed") 1).
  - exact I.
  - reflexivity.
  - reflexivity.
  - reflexivity.
  - reflexivity.
  - split; discriminate.
  - intros [|i] Hi; [split; [discriminate | by eexists] | lia].
  - reflexivity.
  - reflexivity.
  - reflexivity.
Defined.

Lemma non_json_answer_raises_witness :
  (deploy self (model_record "bert" "transformer") (start [bad_gateway])).1
  = inl JSONDecodeError
  /\ (stats self "bert" (start [bad_gateway])).1 = inl JSONDecodeError.
Proof.
  destruct (non_json_answer_raises self (start [bad_gateway])) as [Hasync Hsync].
  split.
  - exact (f_equal fst
             (Hasync (OpDeploy (model_record "bert" "transformer")) I eq_refl)).
  - exact (f_equal fst (Hsync (OpStats "bert") eq_refl)).
Defined.

Lemma call_rejected_witness :
  (__call__ self "bert" "embedding" JNull (start [pending])).1
  = inl (TypeError "<class 'requests.models.Response'>").
Proof.
  apply (call_rejected self "bert" "embedding" JNull (start [pending])).
  - unfold supported_prediction_methods. constructor.
  - discriminate.
  - by eexists.
Defined.

Lemma decode_unreadable_response_witness :
  decode_model_api_response 1 (holding (JDict [("model_outputs", JDict [])]))
  = (inl (KeyError (JStr "model_output_is_encoded")),
     holding (JDict [("model_outputs", JDict [])])).
Proof.
  destruct (decode_unreadable_response
              (holding (JDict [("model_outputs", JDict [])])) 1
              (object_of (Json (JDict [("model_outputs", JDict [])]))) eq_refl)
    as [_ Hfields].
  destruct (Hfields [("model_outputs", FJson (JDict []))] eq_refl) as [Hflag _].
  exact (Hflag eq_refl).
Defined.

Lemma decode_keeps_output_keys_witness :
  exists d' new,
    heap (decode_model_api_response 1 (holding plain_prediction)).2 !! 1%positive
    = Some (ODict d')
    /\ Dict.get "model_outputs" d' = Some (FDecoded new)
    /\ Dict.keys new = ["logits"].
Proof.
  apply (decode_keeps_output_keys (holding plain_prediction)
           (decode_model_api_response 1 (holding plain_prediction)).2 1 1
           (object_of (Json plain_prediction))
           [("model_outputs", FJson (JDict [("logits", JList [JInt 1; JInt 2])]));
            ("model_output_is_encoded", FJson (JBool false))]
           [("logits", JList [JInt 1; JInt 2])]).
  - vm_compute. reflexivity.
  - reflexivity.
  - reflexivity.
  - reflexivity.
Defined.

Lemma decode_outputs_first_failure_witness :
  decode_outputs true
    (FJson (JDict [("a", JStr encoded_3); ("b", JInt 3); ("c", JNull)]))
  = inl (ValueError_unexpected_value "<class 'int'>").
Proof.
  apply (decode_outputs_first_failure [("a", JStr encoded_3)] [("c", JNull)]
           "b" (JInt 3)).
  - repeat constructor. eexists. vm_compute. reflexivity.
  - reflexivity.
Defined.

Lemma get_models_in_deployment_http_error_witness :
  (get_models_in_deployment self (start [pending])).1 = inl (HTTPError 503).
Proof.
  exact (f_equal fst
           (proj1 (get_models_in_deployment_http_error self (start [pending])
                     ltac:(split; [discriminate | reflexivity])))).
Defined.

Lemma get_models_in_deployment_last_wins_witness :
  exists models,
    (get_models_in_deployment self
       (start [answer (running_tasks [deploy_task "bert" "transformer"; other_task;
                                      deploy_task "bert" "adapter"])])).1
    = inr models
    /\ kv_get (JStr "bert") models = Some (JStr "adapter")
    /\ kv_get (JStr "roberta") models = None.
Proof.
  destruct (get_models_in_deployment_last_wins self
              (start [answer (running_tasks [deploy_task "bert" "transformer";
                                             other_task;
                                             deploy_task "bert" "adapter"])])
              (running_tasks [deploy_task "bert" "transformer"; other_task;
                              deploy_task "bert" "adapter"]))
    as (models & Hrun & Hlookup).
  - intros [Hlo _]. by apply Hlo.
  - reflexivity.
  - eexists. split; [reflexivity|].
    repeat constructor. eexists. split; [reflexivity|].
    repeat constructor. eexists. split; [reflexivity|].
    repeat constructor.
    + eexists _, _. split; [reflexivity|]. split; [reflexivity|].
      intros _. by eexists _, _, _, _.
    + eexists _, _. split; [reflexivity|]. split; [reflexivity|]. discriminate.
    + eexists _, _. split; [reflexivity|]. split; [reflexivity|].
      intros _. by eexists _, _, _, _.
  - exists models. split; [exact (f_equal fst Hrun)|].
    split; [exact (Hlookup "bert") | exact (Hlookup "roberta")].
Defined.

Lemma deploy_model_if_not_exists_without_base_model_witness :
  deploy_model_if_not_exists self [("base_model", JStr ""); ("adapter", JStr "qa")]
    (start [])
  = (inr tt, start []).
Proof.
  apply (deploy_model_if_not_exists_without_base_model self
           [("base_model", JStr ""); ("adapter", JStr "qa")] (start [])).
  reflexivity.
Defined.

Lemma deploy_model_if_not_exists_check_fails_witness :
  (deploy_model_if_not_exists self [("base_model", JStr "bert")]
     (start [answer (JList [model_record "bert" "adapter"]); pending; accepted])).1
  = inl (HTTPError 503).
Proof.
  exact (f_equal fst
           (proj1 (deploy_model_if_not_exists_check_fails self
                     [("base_model", JStr "bert")] "bert"
                     (start [answer (JList [model_record "bert" "adapter"]);
                             pending; accepted])
                     (deployed_models self
                        (start [answer (JList [model_record "bert" "adapter"]);
                                pending; accepted])).2
                     (get_models_in_deployment self
                        (deployed_models self
                           (start [answer (JList [model_record "bert" "adapter"]);
                                   pending; accepted])).2).2
                     [model_record "bert" "adapter"] (HTTPError 503)
                     eq_refl ltac:(discriminate) eq_refl
                     ltac:(repeat constructor; by eexists _, _, _)
                     ltac:(intros [(kvs & [= <-] & _ & Ht)|Hex%Exists_nil]%Exists_cons;
                           [discriminate Ht | done])
                     eq_refl))).
Defined.

Lemma deploy_model_if_not_exists_object_answer_witness :
  deploy_model_if_not_exists self [("base_model", JStr "bert")] (start [unauthorized])
  = (inl (TypeError "<class 'str'>"),
     (deployed_models self (start [unauthorized])).2).
Proof.
  apply (deploy_model_if_not_exists_object_answer self [("base_model", JStr "bert")]
           "bert" (start [unauthorized]) (deployed_models self (start [unauthorized])).2
           "detail" (JStr "Unauthorized") []).
  - reflexivity.
  - discriminate.
  - reflexivity.
Defined.

Lemma get_models_in_deployment_unreadable_body_witness :
  (get_models_in_deployment self (start [answer (JList [])])).1
  = inl (AttributeError "<class 'list'>").
Proof.
  exact (f_equal fst
           (proj1 (get_models_in_deployment_unreadable_body self
                     (start [answer (JList [])])
                     ltac:(intros [Hlo _]; by apply Hlo))
              (JList []) eq_refl ltac:(discriminate))).
Defined.

End Runs.
